(** * YouTube transcript summarizer: a shallow embedding of [app.py]

    The program parses a video URL into a video identifier
    ([get_video_id]), fetches the transcript of that video from a
    transcript service ([extract_transcript_details]), sends it to a text
    generation service ([generate_gemini_content]) and renders the summary
    with two download buttons (the Streamlit script at the end of the file).

    Python values are modelled as follows.
    - A [str] is a Rocq [string] holding its UTF-8 encoding.  Slices and
      comparisons on it agree with Python's wherever the text they cut or
      compare is ASCII, which covers every URL form the program recognizes.
    - A value that is a [str] or [None] is an [option string].
    - A call that may raise is a [result]: [Return v] or [Raise e].
    - Code with effects (Streamlit output, calls to the two services) runs
      in the monad [M]: it threads the chronological list of the events
      performed so far and may end in an exception; the events performed
      before an exception stay in the trace. *)

From Stdlib Require Import String Ascii List Bool Arith ZArith QArith.
Import ListNotations.

Open Scope list_scope.
Open Scope string_scope.
Open Scope nat_scope.

(** [s == t] on strings, as in the source. *)
Infix "==" := String.eqb (at level 70, no associativity) : string_scope.

(** ** Exceptions and results *)

(** The exceptions the program can meet.  [Exception_ msg] stands for any
    other subclass of [Exception], with [str(e) = msg]; [KeyboardInterrupt]
    stands for the exceptions outside [Exception] that an [except Exception]
    clause does not catch; [StopException] is what [st.stop()] raises to end
    the script run. *)
Inductive exn : Type :=
| KeyError (key : string)
| IndexError (msg : string)
| ValueError (msg : string)
| TranscriptsDisabled (msg : string)
| NoTranscriptFound (msg : string)
| Exception_ (msg : string)
| KeyboardInterrupt
| StopException.

(** [isinstance(e, Exception)]. *)
Definition is_Exception (e : exn) : bool :=
  match e with
  | KeyboardInterrupt | StopException => false
  | _ => true
  end.

(** [str(e)].  For a [KeyError] it is the [repr] of the key, which for a key
    without quotes or escapes is the key between single quotes. *)
Definition str (e : exn) : string :=
  match e with
  | KeyError key => "'" ++ key ++ "'"
  | IndexError msg | ValueError msg | TranscriptsDisabled msg
  | NoTranscriptFound msg | Exception_ msg => msg
  | KeyboardInterrupt | StopException => ""
  end.

Inductive result (A : Type) : Type :=
| Return (a : A)
| Raise (e : exn).

Arguments Return {A} a.
Arguments Raise {A} e.

Definition result_bind {A B : Type} (r : result A) (k : A -> result B)
  : result B :=
  match r with
  | Return a => k a
  | Raise e => Raise e
  end.

Declare Scope result_scope.
Delimit Scope result_scope with result.
Notation "'let?' x ':=' r 'in' k" := (result_bind r (fun x => k))
  (at level 10, x name, r at level 100, k at level 200) : result_scope.
Notation "'let?' ' p ':=' r 'in' k" := (result_bind r (fun p => k))
  (at level 10, p pattern, r at level 100, k at level 200) : result_scope.
Open Scope result_scope.

(** ** Python string and list operations *)

Module Py.

(** [c in s] for a one-character [c]. *)
Fixpoint contains (c : ascii) (s : string) : bool :=
  match s with
  | EmptyString => false
  | String d s' => Ascii.eqb d c || contains c s'
  end.

(** [s.find(c)], with [None] for -1. *)
Fixpoint find (c : ascii) (s : string) : option nat :=
  match s with
  | EmptyString => None
  | String d s' =>
      if Ascii.eqb d c then Some 0 else option_map S (find c s')
  end.

(** [s[:n]]. *)
Fixpoint take (n : nat) (s : string) : string :=
  match n, s with
  | S n', String c s' => String c (take n' s')
  | _, _ => EmptyString
  end.

(** [s[n:]]. *)
Fixpoint drop (n : nat) (s : string) : string :=
  match n, s with
  | S n', String _ s' => drop n' s'
  | _, _ => s
  end.

(** [s.split(sep)] for a one-character separator: never the empty list. *)
Fixpoint split (sep : ascii) (s : string) : list string :=
  match s with
  | EmptyString => [EmptyString]
  | String c s' =>
      if Ascii.eqb c sep then EmptyString :: split sep s'
      else match split sep s' with
           | [] => [String c EmptyString]
           | w :: ws => String c w :: ws
           end
  end.

(** [s.partition(sep)]: the text before the first separator, whether the
    separator was found, and the text after it. *)
Fixpoint partition (sep : ascii) (s : string) : string * bool * string :=
  match s with
  | EmptyString => (EmptyString, false, EmptyString)
  | String c s' =>
      if Ascii.eqb c sep then (EmptyString, true, s')
      else let '(b, found, a) := partition sep s' in (String c b, found, a)
  end.

(** [s.rpartition(sep)]: as [partition] at the last separator; when there is
    none the whole string is the third component. *)
Fixpoint rpartition (sep : ascii) (s : string) : string * bool * string :=
  match s with
  | EmptyString => (EmptyString, false, EmptyString)
  | String c s' =>
      let '(b, found, a) := rpartition sep s' in
      if found then (String c b, true, a)
      else if Ascii.eqb c sep then (EmptyString, true, s')
      else (EmptyString, false, String c a)
  end.

(** [s.replace(c, "")]. *)
Fixpoint remove (c : ascii) (s : string) : string :=
  match s with
  | EmptyString => EmptyString
  | String d s' =>
      if Ascii.eqb d c then remove c s' else String d (remove c s')
  end.

(** [s.replace(c, d)] for one-character [c] and [d]. *)
Fixpoint replace (c d : ascii) (s : string) : string :=
  match s with
  | EmptyString => EmptyString
  | String x s' => String (if Ascii.eqb x c then d else x) (replace c d s')
  end.

(** [s.lstrip(chars)], with the set of characters given as a test. *)
Fixpoint lstrip (p : ascii -> bool) (s : string) : string :=
  match s with
  | EmptyString => EmptyString
  | String c s' => if p c then lstrip p s' else s
  end.

(** [all(p(c) for c in s)]. *)
Fixpoint all (p : ascii -> bool) (s : string) : bool :=
  match s with
  | EmptyString => true
  | String c s' => p c && all p s'
  end.

Definition between (lo hi : nat) (c : ascii) : bool :=
  (lo <=? nat_of_ascii c) && (nat_of_ascii c <=? hi).

Definition is_upper (c : ascii) : bool := between 65 90 c.
Definition is_lower (c : ascii) : bool := between 97 122 c.
Definition is_digit (c : ascii) : bool := between 48 57 c.
Definition is_alpha (c : ascii) : bool := is_upper c || is_lower c.

(** [s.lower()] on the ASCII letters; other bytes are kept. *)
Definition lower_char (c : ascii) : ascii :=
  if is_upper c then ascii_of_nat (nat_of_ascii c + 32) else c.

Fixpoint lower (s : string) : string :=
  match s with
  | EmptyString => EmptyString
  | String c s' => String (lower_char c) (lower s')
  end.

(** [sep.join(l)]. *)
Fixpoint join (sep : string) (l : list string) : string :=
  match l with
  | [] => EmptyString
  | [x] => x
  | x :: rest => x ++ sep ++ join sep rest
  end.

(** [l[i]] on a list. *)
Definition list_get {A : Type} (l : list A) (i : nat) : result A :=
  match nth_error l i with
  | Some x => Return x
  | None => Raise (IndexError "list index out of range")
  end.

(** A [dict] with string keys, as the list of its items in insertion
    order. *)
Definition dict (V : Type) : Type := list (string * V).

Fixpoint dict_lookup {V : Type} (d : dict V) (key : string) : option V :=
  match d with
  | [] => None
  | (k, v) :: d' => if String.eqb k key then Some v else dict_lookup d' key
  end.

(** [d[key]]. *)
Definition dict_get {V : Type} (d : dict V) (key : string) : result V :=
  match dict_lookup d key with
  | Some v => Return v
  | None => Raise (KeyError key)
  end.

(** [d[key] = v] on an existing key, [d[key] = v] on a new one appends. *)
Fixpoint dict_set {V : Type} (d : dict V) (key : string) (v : V) : dict V :=
  match d with
  | [] => [(key, v)]
  | (k, w) :: d' =>
      if String.eqb k key then (k, v) :: d' else (k, w) :: dict_set d' key v
  end.

(** Every value of a dictionary satisfies [P]. *)
Definition dict_all {V : Type} (P : V -> Prop) (d : dict V) : Prop :=
  Forall (fun item => P (snd item)) d.

(** Truth value of a [str] or [None]: [None] and [""] are falsy. *)
Definition truthy (v : option string) : bool :=
  match v with
  | None | Some EmptyString => false
  | Some _ => true
  end.

(** [v == s] and [v in l] for a [v] that is a [str] or [None]. *)
Definition equal (v : option string) (s : string) : bool :=
  match v with
  | Some x => String.eqb x s
  | None => false
  end.

Definition member (v : option string) (l : list string) : bool :=
  existsb (equal v) l.

(** The string held by a value known not to be [None]. *)
Definition the (v : option string) : string :=
  match v with
  | Some s => s
  | None => EmptyString
  end.

End Py.

(** ** The URL library: [urllib.parse] and the part of [ipaddress] it calls

    [urlparse] and [parse_qs] belong to the Python standard library, not to
    the program.  They are modelled after CPython 3.11 ([urllib/parse.py],
    [ipaddress.py]) for [str] arguments and default keyword arguments.
    Three Unicode steps of the library are outside the model: the NFKC check
    of a netloc that has non-ASCII characters ([_checknetloc], which returns
    at once for an ASCII netloc), the case mapping of non-ASCII letters by
    [lower], and the replacement of percent-escapes that do not decode to
    UTF-8 in [unquote] (the decoded bytes are kept). *)

Module urllib.

Import Py.

Record ParseResult : Type := {
  scheme : string;
  netloc : string;
  path : string;
  params : string;
  query : string;
  fragment : string
}.

Definition uses_params : list string :=
  [""; "ftp"; "hdl"; "prospero"; "http"; "imap"; "https"; "shttp"; "rtsp";
   "rtspu"; "sip"; "sips"; "mms"; "sftp"; "tel"].

(** [c in scheme_chars]. *)
Definition scheme_char (c : ascii) : bool :=
  is_lower c || is_upper c || is_digit c || contains c "+-.".

(** [c in _WHATWG_C0_CONTROL_OR_SPACE]. *)
Definition c0_control_or_space (c : ascii) : bool := nat_of_ascii c <=? 32.

Definition _UNSAFE_URL_BYTES_TO_REMOVE : list ascii :=
  ["009"%char; "013"%char; "010"%char].

Definition is_hex (c : ascii) : bool :=
  is_digit c || between 65 70 c || between 97 102 c.

(** [s.find(c, start)]. *)
Definition find_from (c : ascii) (start : nat) (s : string) : option nat :=
  option_map (Nat.add start) (find c (drop start s)).

Definition _splitnetloc (url : string) (start : nat) : string * string :=
  let delim :=
    fold_left
      (fun delim c =>
         match find_from c start url with
         | Some wdelim => Nat.min delim wdelim
         | None => delim
         end)
      ["/"%char; "?"%char; "#"%char] (String.length url) in
  (take (delim - start) (drop start url), drop delim url).

(** [int(s, 10)] on a string of decimal digits. *)
Definition int10 (s : string) : nat :=
  fold_left (fun n c => 10 * n + (nat_of_ascii c - 48))
            (list_ascii_of_string s) 0.

(** [IPv4Address._parse_octet] succeeds. *)
Definition _parse_octet_ok (octet_str : string) : bool :=
  if octet_str == "" then false
  else if negb (all is_digit octet_str) then false
  else if 3 <? String.length octet_str then false
  else if negb (octet_str == "0") && (take 1 octet_str == "0") then false
  else int10 octet_str <=? 255.

(** [IPv4Address(address)] succeeds. *)
Definition IPv4Address_ok (address : string) : bool :=
  negb (contains "/" address)
  && negb (address == "")
  && (let octets := split "." address in
      (List.length octets =? 4) && forallb _parse_octet_ok octets).

(** [IPv6Address._parse_hextet] succeeds. *)
Definition _parse_hextet_ok (hextet_str : string) : bool :=
  all is_hex hextet_str
  && (String.length hextet_str <=? 4)
  && negb (hextet_str == "").

(** The indices [i] of [range(1, len(parts) - 1)] with [parts[i]] empty. *)
Definition skip_indices (parts : list string) : list nat :=
  filter (fun i => nth i parts "" == "") (seq 1 (List.length parts - 2)).

(** [IPv6Address(address)] succeeds. *)
Definition IPv6Address_ok (address : string) : bool :=
  if contains "/" address then false else
  let '(addr, sep, scope_id) := partition "%" address in
  if sep && ((scope_id == "") || contains "%" scope_id) then false else
  if addr == "" then false else
  let parts := split ":" addr in
  if List.length parts <? 3 then false else
  let ipv4_suffix := contains "." (last parts "") in
  if ipv4_suffix && negb (IPv4Address_ok (last parts "")) then false else
  let parts := if ipv4_suffix then (removelast parts ++ ["0"; "0"])%list else parts in
  let n := List.length parts in
  if 9 <? n then false else
  match skip_indices parts with
  | _ :: _ :: _ => false
  | [skip_index] =>
      let parts_hi := skip_index in
      let parts_lo := n - skip_index - 1 in
      let lead := nth 0 parts "" == "" in
      let trail := last parts "" == "" in
      let parts_hi' := if lead then parts_hi - 1 else parts_hi in
      let parts_lo' := if trail then parts_lo - 1 else parts_lo in
      if lead && negb (parts_hi' =? 0) then false else
      if trail && negb (parts_lo' =? 0) then false else
      if 8 <=? parts_hi' + parts_lo' then false else
      forallb _parse_hextet_ok (firstn parts_hi' parts)
      && forallb _parse_hextet_ok (skipn (n - parts_lo') parts)
  | [] =>
      (n =? 8)
      && negb (nth 0 parts "" == "")
      && negb (last parts "" == "")
      && forallb _parse_hextet_ok parts
  end.

Definition _check_bracketed_host (hostname : string) : result unit :=
  if take 1 hostname == "v" then
    (* re.match(r"\Av[a-fA-F0-9]+\..+\Z", hostname) *)
    let digits := lstrip is_hex (drop 1 hostname) in
    let rest := drop 1 digits in
    if (String.length digits <? String.length (drop 1 hostname))
       && (take 1 digits == ".")
       && negb (rest == "")
       && negb (contains "010" rest)
    then Return tt
    else Raise (ValueError "IPvFuture address is invalid")
  else if IPv4Address_ok hostname then
    Raise (ValueError "An IPv4 address cannot be in brackets")
  else if IPv6Address_ok hostname then Return tt
  else Raise (ValueError ("'" ++ hostname
                ++ "' does not appear to be an IPv4 or IPv6 address")).

Definition _check_bracketed_netloc (netloc : string) : result unit :=
  let '(_, _, hostname_and_port) := rpartition "@" netloc in
  let '(before_bracket, have_open_br, bracketed) :=
    partition "[" hostname_and_port in
  if have_open_br then
    if negb (before_bracket == "") then Raise (ValueError "Invalid IPv6 URL")
    else
      let '(hostname, _, port) := partition "]" bracketed in
      if negb (port == "") && negb (take 1 port == ":")
      then Raise (ValueError "Invalid IPv6 URL")
      else _check_bracketed_host hostname
  else
    let '(hostname, _, port) := partition ":" hostname_and_port in
    _check_bracketed_host hostname.

(** [urlsplit(url)]: scheme, netloc, path, query, fragment. *)
Definition urlsplit (url : string)
  : result (string * string * string * string * string) :=
  let url := lstrip c0_control_or_space url in
  let url := fold_left (fun u b => remove b u) _UNSAFE_URL_BYTES_TO_REMOVE url in
  let '(scheme, url) :=
    match find ":" url with
    | Some i =>
        if (0 <? i)
           && all is_alpha (take 1 url)
           && all scheme_char (take i url)
        then (lower (take i url), drop (i + 1) url)
        else ("", url)
    | None => ("", url)
    end in
  let? '(netloc, url) :=
    if take 2 url == "//" then
      let '(netloc, url) := _splitnetloc url 2 in
      if (contains "[" netloc && negb (contains "]" netloc))
         || (contains "]" netloc && negb (contains "[" netloc))
      then Raise (ValueError "Invalid IPv6 URL")
      else if contains "[" netloc && contains "]" netloc then
        let? _ := _check_bracketed_netloc netloc in Return (netloc, url)
      else Return (netloc, url)
    else Return ("", url) in
  (* url.split('#', 1) and url.split('?', 1), guarded by a membership test *)
  let '(url, _, fragment) := partition "#" url in
  let '(url, _, query) := partition "?" url in
  Return (scheme, netloc, url, query, fragment).

Definition _splitparams (url : string) : string * string :=
  let cut (i : nat) := (take i url, drop (i + 1) url) in
  if contains "/" url then
    let '(before, _, after) := rpartition "/" url in
    match find ";" after with
    | Some j => cut (String.length before + 1 + j)
    | None => (url, "")
    end
  else
    match find ";" url with
    | Some i => cut i
    | None => (url, "")
    end.

Definition urlparse (url : string) : result ParseResult :=
  let? '(scheme, netloc, url, query, fragment) := urlsplit url in
  let '(url, params) :=
    if existsb (String.eqb scheme) uses_params && contains ";" url
    then _splitparams url
    else (url, "") in
  Return {| scheme := scheme; netloc := netloc; path := url;
            params := params; query := query; fragment := fragment |}.

Definition _hostinfo (r : ParseResult) : string * string :=
  let '(_, _, hostinfo) := rpartition "@" (netloc r) in
  let '(_, have_open_br, bracketed) := partition "[" hostinfo in
  if have_open_br then
    let '(hostname, _, port) := partition "]" bracketed in
    let '(_, _, port) := partition ":" port in
    (hostname, port)
  else
    let '(hostname, _, port) := partition ":" hostinfo in
    (hostname, port).

(** The [hostname] property of a parse result. *)
Definition hostname (r : ParseResult) : option string :=
  let hostname := fst (_hostinfo r) in
  if hostname == "" then None
  else
    let '(hostname, percent, zone) := partition "%" hostname in
    Some (lower hostname ++ (if percent then "%" else "") ++ zone).

Definition hex_value (c : ascii) : nat :=
  if is_digit c then nat_of_ascii c - 48
  else if between 65 70 c then nat_of_ascii c - 55
  else nat_of_ascii c - 87.

(** One piece of [string.split('%')] after the first, in
    [unquote_to_bytes]. *)
Definition unquote_item (item : string) : string :=
  match item with
  | String a (String b rest) =>
      if is_hex a && is_hex b
      then String (ascii_of_nat (16 * hex_value a + hex_value b)) rest
      else String "%" item
  | _ => String "%" item
  end.

Definition unquote (s : string) : string :=
  match split "%" s with
  | [] => s
  | first :: items => first ++ String.concat "" (map unquote_item items)
  end.

Definition parse_qsl (qs : string) : list (string * string) :=
  let query_args := if qs == "" then [] else split "&" qs in
  flat_map
    (fun name_value =>
       if name_value == "" then []
       else
         (* nv = name_value.split('=', 1) *)
         let '(name, have_value, value) := partition "=" name_value in
         if negb have_value then []
         else if value == "" then []
         else [(unquote (replace "+" " " name),
                unquote (replace "+" " " value))])
    query_args.

Definition parse_qs (qs : string) : dict (list string) :=
  fold_left
    (fun parsed_result '(name, value) =>
       match dict_lookup parsed_result name with
       | Some values => dict_set parsed_result name (values ++ [value])%list
       | None => dict_set parsed_result name [value]
       end)
    (parse_qsl qs) [].

(** A non-empty list of non-empty values: what [parse_qs] stores under
    each key. *)
Definition values_ok (values : list string) : Prop :=
  values <> [] /\ Forall (fun v => v <> "") values.

End urllib.

(** ** The collaborators: transcript service, generation service, Streamlit *)

(** A transcript segment, [{'text': ..., 'start': ..., 'duration': ...}]. *)
Record Segment : Type := {
  text : string;
  start : Q;
  duration : Q
}.

(** What [list_transcripts] returns: a [TranscriptList] object of the
    transcript library, as the language codes of the transcripts it lists. *)
Definition TranscriptList : Type := list string.

(** The truth value Python gives a [TranscriptList] object.  The class
    defines [__iter__], but neither [__bool__] nor [__len__]: the object is
    true whatever it lists, also when it lists nothing. *)
Definition TranscriptList_truthy (transcript_list : TranscriptList) : bool :=
  true.

(** The objects of the generation library. *)
Module genai.

(** A model object, as the name it was built from. *)
Record Model : Type := { model_name : string }.

Record GenerationConfig : Type := {
  temperature : Q;
  top_p : Q;
  top_k : Z;
  max_output_tokens : Z
}.

(** A response object; reading its [text] property may raise. *)
Record Response : Type := { text : result string }.

End genai.

(** The two services, as what each request answers.  A run of the script
    sends no request twice ([Shell.run_requests_once] below), so an answer
    that depends on the request alone covers every behaviour a run can
    observe. *)
Record Services : Type := {
  list_transcripts : string -> result TranscriptList;
  get_transcript : string -> option (list string) -> result (list Segment);
  GenerativeModel : string -> result genai.Model;
  generate_content :
    genai.Model -> string -> Py.dict string -> genai.GenerationConfig ->
    result genai.Response
}.

(** The observable actions of a run, in the order they happen. *)
Inductive event : Type :=
| ListTranscripts (video_id : string)
| GetTranscript (video_id : string) (languages : option (list string))
| LoadModel (model_name : string)
| GenerateContent (model : genai.Model) (prompt : string)
    (safety_settings : Py.dict string)
    (generation_config : genai.GenerationConfig)
| StTitle (body : string)
| StCaption (body : string)
| StHeader (body : string)
| StError (body : string)
| StWarning (body : string)
| StSuccess (body : string)
| StMarkdown (body : string)
| StSubheader (body : string)
| StWrite (body : string)
| StSpinner (body : string)
| StDownloadButton (label data file_name mime : string).

(** ** The effect monad *)

Definition M (A : Type) : Type := list event -> result A * list event.

Definition ret {A : Type} (a : A) : M A := fun tr => (Return a, tr).

Definition bind {A B : Type} (m : M A) (k : A -> M B) : M B :=
  fun tr =>
    match m tr with
    | (Return a, tr') => k a tr'
    | (Raise e, tr') => (Raise e, tr')
    end.

(** [raise e]. *)
Definition raise {A : Type} (e : exn) : M A := fun tr => (Raise e, tr).

(** A pure computation that may raise. *)
Definition lift {A : Type} (r : result A) : M A := fun tr => (r, tr).

(** Performing an action: it is appended to the trace. *)
Definition emit (ev : event) : M unit := fun tr => (Return tt, (tr ++ [ev])%list).

(** [try: m  except ...: handler]: [handler e] is [None] when no clause
    matches [e], which then propagates. *)
Definition try_except {A : Type} (m : M A) (handler : exn -> option (M A))
  : M A :=
  fun tr =>
    match m tr with
    | (Return a, tr') => (Return a, tr')
    | (Raise e, tr') =>
        match handler e with
        | Some h => h tr'
        | None => (Raise e, tr')
        end
    end.

Declare Scope M_scope.
Delimit Scope M_scope with M.
Notation "x <- m ;; k" := (bind m (fun x => k))
  (at level 61, m at next level, right associativity) : M_scope.
Notation "' p <- m ;; k" := (bind m (fun x => match x with p => k end))
  (at level 61, p pattern, m at next level, right associativity) : M_scope.
Notation "m ;; k" := (bind m (fun _ => k))
  (at level 61, right associativity) : M_scope.
Open Scope M_scope.

(** ** The program *)

Definition nl : string := String "010" "".

Definition PROMPT_TEMPLATE : string :=
  nl ++
  "Please analyze the following YouTube video transcript and provide a concise summary with:" ++ nl ++
  "1. Main topic and purpose (1-2 sentences)" ++ nl ++
  "2. 3-5 key points (as bullet points)" ++ nl ++
  "3. Any important facts, figures, or statistics mentioned" ++ nl ++
  "4. Overall conclusions or takeaways" ++ nl ++
  nl ++
  "Guidelines:" ++ nl ++
  "- Keep summary under 250 words" ++ nl ++
  "- Use neutral, academic tone" ++ nl ++
  "- Focus on factual content only" ++ nl ++
  "- Format with clear section headings" ++ nl ++
  nl ++
  "Transcript:" ++ nl ++
  "{transcript}" ++ nl.

(** [template.format(name=value, ...)] for a template whose replacement
    fields are plain names and that has no doubled brace: [field] is the
    name being read inside braces, if any. *)
Fixpoint format_from (template : string) (kwargs : Py.dict string)
    (field : option string) : result string :=
  match template, field with
  | EmptyString, None => Return EmptyString
  | EmptyString, Some _ =>
      Raise (ValueError "expected '}' before end of string")
  | String c template', None =>
      if Ascii.eqb c "{" then format_from template' kwargs (Some EmptyString)
      else if Ascii.eqb c "}" then
        Raise (ValueError "Single '}' encountered in format string")
      else
        let? rest := format_from template' kwargs None in
        Return (String c rest)
  | String c template', Some name =>
      if Ascii.eqb c "}" then
        let? value := Py.dict_get kwargs name in
        let? rest := format_from template' kwargs None in
        Return (value ++ rest)
      else format_from template' kwargs (Some (name ++ String c EmptyString))
  end.

Definition format (template : string) (kwargs : Py.dict string)
  : result string :=
  format_from template kwargs None.

Definition get_video_id (url : string) : result (option string) :=
  let? query := urllib.urlparse url in
  if Py.equal (urllib.hostname query) "youtu.be" then
    Return (Some (Py.drop 1 (urllib.path query)))
  else
    if Py.member (urllib.hostname query) ["www.youtube.com"; "youtube.com"]
    then
      if urllib.path query == "/watch" then
        let? values := Py.dict_get (urllib.parse_qs (urllib.query query)) "v" in
        let? value := Py.list_get values 0 in
        Return (Some value)
      else if Py.take 7 (urllib.path query) == "/embed/" then
        let? segment := Py.list_get (Py.split "/" (urllib.path query)) 2 in
        Return (Some segment)
      else if Py.take 3 (urllib.path query) == "/v/" then
        let? segment := Py.list_get (Py.split "/" (urllib.path query)) 2 in
        Return (Some segment)
      else Return None
    else Return None.

Definition model_names_to_try : list string :=
  ["gemini-1.5-pro-latest"; "gemini-pro"; "models/gemini-pro"].

Definition safety_settings : Py.dict string :=
  [("HARM_CATEGORY_HARASSMENT", "BLOCK_ONLY_HIGH");
   ("HARM_CATEGORY_HATE_SPEECH", "BLOCK_ONLY_HIGH");
   ("HARM_CATEGORY_SEXUALLY_EXPLICIT", "BLOCK_ONLY_HIGH");
   ("HARM_CATEGORY_DANGEROUS_CONTENT", "BLOCK_ONLY_HIGH")].

Definition generation_config : genai.GenerationConfig :=
  {| genai.temperature := 0.3; genai.top_p := 0.95; genai.top_k := 40;
     genai.max_output_tokens := 2048 |}.

(** The widget values of one script run. *)
Record Widgets : Type := {
  max_length : Z;
  temperature : Q;
  youtube_link : string;
  generate_summary : bool
}.

Section Program.

Variable svc : Services.

Definition st_stop {A : Type} : M A := raise StopException.

Definition extract_transcript_details (youtube_video_url : string)
  : M (option string) :=
  try_except
    (video_id <- lift (get_video_id youtube_video_url) ;;
     if negb (Py.truthy video_id) then
       emit (StError "⚠️ Invalid YouTube URL format") ;;
       ret None
     else
       let video_id := Py.the video_id in
       (* Check available transcripts *)
       emit (ListTranscripts video_id) ;;
       transcript_list <- lift (list_transcripts svc video_id) ;;
       if negb (TranscriptList_truthy transcript_list) then
         emit (StWarning "🔇 No transcripts available for this video") ;;
         ret None
       else
         (* Try to get English transcript first *)
         transcript <-
           try_except
             (emit (GetTranscript video_id (Some ["en"])) ;;
              lift (get_transcript svc video_id (Some ["en"])))
             (fun _ =>
                Some (emit (GetTranscript video_id None) ;;
                      lift (get_transcript svc video_id None))) ;;
         ret (Some (Py.join " " (map text transcript))))
    (fun e =>
       match e with
       | TranscriptsDisabled _ =>
           Some (emit (StError "❌ Transcripts are disabled for this video") ;;
                 ret None)
       | NoTranscriptFound _ =>
           Some (emit (StError "🔍 No transcripts found for this video") ;;
                 ret None)
       | _ =>
           if is_Exception e
           then Some (emit (StError ("⚠️ Error: " ++ str e)) ;; ret None)
           else None
       end).

(** The [for model_name in model_names_to_try] loop, on the names left. *)
Fixpoint load_model (names : list string) (model : option genai.Model)
    (last_error : option exn) : M (option genai.Model * option exn) :=
  match names with
  | [] => ret (model, last_error)
  | model_name :: names' =>
      attempt <-
        try_except
          (emit (LoadModel model_name) ;;
           model <- lift (GenerativeModel svc model_name) ;;
           ret (inl model))
          (fun e => if is_Exception e then Some (ret (inr e)) else None) ;;
      match attempt with
      | inl model => ret (Some model, last_error)          (* break *)
      | inr e => load_model names' model (Some e)          (* continue *)
      end
  end.

Definition generate_gemini_content (transcript_text : string)
  : M (option string) :=
  try_except
    ('(model, last_error) <- load_model model_names_to_try None None ;;
     match model with
     | None =>
         raise (Exception_ ("Could not load any model. Last error: "
                            ++ match last_error with
                               | Some e => str e
                               | None => "None"
                               end))
     | Some model =>
         prompt <- lift (format PROMPT_TEMPLATE
                                [("transcript", transcript_text)]) ;;
         emit (GenerateContent model prompt safety_settings
                               generation_config) ;;
         response <- lift (generate_content svc model prompt safety_settings
                                            generation_config) ;;
         text <- lift (genai.text response) ;;
         ret (Some text)
     end)
    (fun e =>
       if is_Exception e
       then Some (emit (StError ("🚨 Generation failed: " ++ str e)) ;;
                  ret None)
       else None).

(** The Streamlit script, from the page title on, for one run with the
    given widget values. *)
Definition script (w : Widgets) : M unit :=
  emit (StTitle "📺 YouTube AI Summarizer") ;;
  emit (StCaption "Generate concise summaries from YouTube video transcripts") ;;
  emit (StHeader "Settings") ;;
  (if generate_summary w then
     (if youtube_link w == "" then
        emit (StWarning "Please enter a YouTube URL") ;;
        st_stop
      else ret tt) ;;
     emit (StSpinner "🔍 Extracting transcript...") ;;
     transcript <- extract_transcript_details (youtube_link w) ;;
     (if negb (Py.truthy transcript) then st_stop else ret tt) ;;
     emit (StSpinner "🧠 Generating summary (this may take a minute)...") ;;
     summary <- generate_gemini_content (Py.the transcript) ;;
     if Py.truthy summary then
       let summary := Py.the summary in
       emit (StSuccess "✅ Summary generated successfully!") ;;
       emit (StMarkdown "---") ;;
       emit (StSubheader "Summary") ;;
       emit (StWrite summary) ;;
       (* Download options *)
       emit (StDownloadButton "Download as TXT" summary
                              "youtube_summary.txt" "text/plain") ;;
       emit (StDownloadButton "Download as MD"
                              ("# YouTube Summary" ++ nl ++ nl ++ summary)
                              "youtube_summary.md" "text/markdown")
     else
       emit (StError "Failed to generate summary. Please try a different video or check your API key permissions.")
   else ret tt) ;;
  emit (StMarkdown "---") ;;
  emit (StCaption "ℹ️ Note: Requires videos with available transcripts. Some content may be filtered by safety systems.").

(** The trace of one run, started on an empty page. *)
Definition run (w : Widgets) : list event := snd (script w []).

End Program.

(** ** The specification of the identifier extractor *)

(** The case analysis of the specification, in its own words.  A URL that
    cannot be parsed has no host and no path, so it is unrecognized. *)
Module Spec.

Import Py urllib.

Definition short_link_domain : string := "youtu.be".

Definition video_site_domains : list string :=
  ["www.youtube.com"; "youtube.com"].

(** The path segments: the pieces between the slashes that follow the
    leading slash. *)
Definition path_segments (path : string) : list string :=
  split "/" (drop 1 path).

Definition first_path_segment (path : string) : string :=
  hd "" (path_segments path).

(** The path segment following a route prefix, when the path begins with
    it. *)
Definition segment_following (prefix path : string) : option string :=
  if take (String.length prefix) path == prefix
  then Some (hd "" (split "/" (drop (String.length prefix) path)))
  else None.

(** The first value of the [v] query parameter. *)
Definition v_parameter (q : ParseResult) : option string :=
  match dict_lookup (parse_qs (query q)) "v" with
  | Some (v :: _) => Some v
  | _ => None
  end.

(** The routes of the video site. *)
Definition video_site_route (q : ParseResult) : option string :=
  if path q == "/watch" then v_parameter q
  else
    match segment_following "/embed/" (path q) with
    | Some id => Some id
    | None => segment_following "/v/" (path q)
    end.

Definition reference_cases (q : ParseResult) : option string :=
  if equal (hostname q) short_link_domain
  then Some (first_path_segment (path q))
  else if member (hostname q) video_site_domains then video_site_route q
  else None.

Definition reference_extraction (url : string) : option string :=
  match urlparse url with
  | Return q => reference_cases q
  | Raise _ => None
  end.

(** The case analysis with the short-link case as the program has it: the
    whole path after its first character. *)
Definition program_cases (q : ParseResult) : option string :=
  if equal (hostname q) short_link_domain then Some (drop 1 (path q))
  else if member (hostname q) video_site_domains then video_site_route q
  else None.

(** A watch-page URL of the video site without a [v] parameter. *)
Definition watch_without_v (q : ParseResult) : bool :=
  negb (equal (hostname q) short_link_domain)
  && member (hostname q) video_site_domains
  && (path q == "/watch")
  && match dict_lookup (parse_qs (query q)) "v" with
     | Some _ => false
     | None => true
     end.

(** The parse results for which the program returns the empty string:
    nothing after the first character of a short-link path, or an empty
    segment after the prefix of an embed or video route. *)
Definition nothing_follows (n : nat) (path : string) : bool :=
  (drop n path == "") || (take 1 (drop n path) == "/").

Definition yields_empty_identifier (q : ParseResult) : bool :=
  if equal (hostname q) short_link_domain then drop 1 (path q) == ""
  else
    member (hostname q) video_site_domains
    && negb (path q == "/watch")
    && (if take 7 (path q) == "/embed/" then nothing_follows 7 (path q)
        else (take 3 (path q) == "/v/") && nothing_follows 3 (path q)).

End Spec.


(** ** The specification of the transcript text *)

Module TranscriptSpec.

(** The texts of the segments after the first, each added behind a single
    space, from left to right. *)
Fixpoint space_joined (acc : string) (segments : list Segment) : string :=
  match segments with
  | [] => acc
  | s :: rest => space_joined (acc ++ " " ++ text s) rest
  end.

(** The transcript text of a sequence of segments. *)
Definition TranscriptText (segments : list Segment) : string :=
  match segments with
  | [] => ""
  | s :: rest => space_joined (text s) rest
  end.

End TranscriptSpec.

(** ** Observations on traces *)

(** A fetch of a transcript. *)
Definition is_fetch (ev : event) : bool :=
  match ev with
  | GetTranscript _ _ => true
  | _ => false
  end.

(** A call to the generation service. *)
Definition is_generation_call (ev : event) : bool :=
  match ev with
  | LoadModel _ | GenerateContent _ _ _ _ => true
  | _ => false
  end.

(** A request to one of the two services. *)
Definition is_request (ev : event) : bool :=
  match ev with
  | ListTranscripts _ | GetTranscript _ _ | LoadModel _
  | GenerateContent _ _ _ _ => true
  | _ => false
  end.

Definition requests (tr : list event) : list event := filter is_request tr.

Definition is_download (ev : event) : bool :=
  match ev with
  | StDownloadButton _ _ _ _ => true
  | _ => false
  end.


(** A call to the transcript service carries a non-empty identifier. *)
Definition nonempty_identifier (ev : event) : Prop :=
  match ev with
  | ListTranscripts video_id | GetTranscript video_id _ => video_id <> ""
  | _ => True
  end.

(** A generation request carries the fixed configuration. *)
Definition fixed_configuration (ev : event) : Prop :=
  match ev with
  | GenerateContent _ _ safety config =>
      safety = [("HARM_CATEGORY_HARASSMENT", "BLOCK_ONLY_HIGH");
                ("HARM_CATEGORY_HATE_SPEECH", "BLOCK_ONLY_HIGH");
                ("HARM_CATEGORY_SEXUALLY_EXPLICIT", "BLOCK_ONLY_HIGH");
                ("HARM_CATEGORY_DANGEROUS_CONTENT", "BLOCK_ONLY_HIGH")]
      /\ config = {| genai.temperature := 0.3; genai.top_p := 0.95;
                     genai.top_k := 40; genai.max_output_tokens := 2048 |}
  | _ => True
  end.

(** Every event a computation adds to a trace satisfies [P]. *)
Definition preserves {A : Type} (P : event -> Prop) (m : M A) : Prop :=
  forall tr, Forall P tr -> Forall P (snd (m tr)).

(** The service rejects a model name: building the model raises an
    [Exception]. *)
Definition rejects (svc : Services) (e : exn) (name : string) : Prop :=
  GenerativeModel svc name = Raise e /\ is_Exception e = true.

(** The value of [last_error] after the given rejections. *)
Definition last_error_after (errors : list exn) (last_error : option exn)
  : option exn :=
  fold_left (fun _ e => Some e) errors last_error.

(** The events of a script run before the retriever is called. *)
Definition page_head : list event :=
  [StTitle "📺 YouTube AI Summarizer";
   StCaption "Generate concise summaries from YouTube video transcripts";
   StHeader "Settings"].

(** The events that close every complete script run. *)
Definition page_foot : list event :=
  [StMarkdown "---";
   StCaption "ℹ️ Note: Requires videos with available transcripts. Some content may be filtered by safety systems."].

(** The two download buttons for a summary. *)
Definition download_buttons (summary : string) : list event :=
  [StDownloadButton "Download as TXT" summary
                    "youtube_summary.txt" "text/plain";
   StDownloadButton "Download as MD"
                    ("# YouTube Summary" ++ nl ++ nl ++ summary)
                    "youtube_summary.md" "text/markdown"].

(** ** Services used as examples *)

Module Stubs.

Definition hello_world : list Segment :=
  [{| text := "Hello"; start := 0; duration := 1.5 |};
   {| text := "world"; start := 1.5; duration := 2 |}].

(** Generation that echoes the prompt. *)
Definition echo (model : genai.Model) (prompt : string)
    (safety : Py.dict string) (config : genai.GenerationConfig)
  : result genai.Response :=
  Return {| genai.text := Return prompt |}.

(** A transcript service with an English transcript, and a generation
    service that knows the second model name only. *)
Definition english : Services := {|
  list_transcripts := fun _ => Return ["en"];
  get_transcript := fun _ _ => Return hello_world;
  GenerativeModel := fun name =>
    if name == "gemini-pro" then Return {| genai.model_name := name |}
    else Raise (Exception_ ("404 models/" ++ name ++ " is not found"));
  generate_content := echo
|}.

(** A generation service whose summary is the text after the last line
    break but one of the prompt: the transcript it was sent. *)
Definition repeat_transcript : Services := {|
  list_transcripts := list_transcripts english;
  get_transcript := get_transcript english;
  GenerativeModel := GenerativeModel english;
  generate_content := fun _ prompt _ _ =>
    Return {| genai.text :=
                Py.list_get (rev (Py.split "010" prompt)) 1 |}
|}.

(** A transcript service without an English transcript. *)
Definition no_english : Services := {|
  list_transcripts := fun _ => Return ["de"];
  get_transcript := fun video_id languages =>
    match languages with
    | Some _ => Raise (NoTranscriptFound "No transcripts were found")
    | None => Return hello_world
    end;
  GenerativeModel := GenerativeModel english;
  generate_content := echo
|}.

(** A transcript service that lists no transcript. *)
Definition no_transcripts : Services := {|
  list_transcripts := fun _ => Return [];
  get_transcript := fun _ _ => Raise (NoTranscriptFound "No transcripts were found");
  GenerativeModel := GenerativeModel english;
  generate_content := echo
|}.

(** A generation service that rejects every model name. *)
Definition no_model : Services := {|
  list_transcripts := list_transcripts english;
  get_transcript := get_transcript english;
  GenerativeModel := fun name =>
    Raise (Exception_ ("404 models/" ++ name ++ " is not found"));
  generate_content := echo
|}.

Definition watch_abc123 : Widgets := {|
  max_length := 250;
  temperature := 0.3;
  youtube_link := "https://www.youtube.com/watch?v=abc123";
  generate_summary := true
|}.

End Stubs.

(** ** Further observations *)

(** No character of [s] is one of [chars]. *)
Definition free_of (chars s : string) : bool :=
  Py.all (fun c => negb (Py.contains c chars)) s.

(** The characters that end or split the path of a URL, and those the URL
    parser removes. *)
Definition path_delimiters : string :=
  String "009" (String "013" (String "010" "#?;")).

(** The characters that end or split a query value, those the URL parser
    removes, and those [parse_qs] decodes. *)
Definition value_delimiters : string :=
  String "009" (String "013" (String "010" "#&%+")).

(** A notice that reports a failure to the user. *)
Definition is_notice (ev : event) : bool :=
  match ev with
  | StError _ | StWarning _ => true
  | _ => false
  end.

Definition notices (tr : list event) : list event := filter is_notice tr.

(** The notice of the retriever for an exception, by its three [except]
    clauses. *)
Definition failure_notice (e : exn) : string :=
  match e with
  | TranscriptsDisabled _ => "❌ Transcripts are disabled for this video"
  | NoTranscriptFound _ => "🔍 No transcripts found for this video"
  | _ => "⚠️ Error: " ++ str e
  end.

(** The prompt template up to its slot. *)
Definition PROMPT_HEAD : string :=
  Py.take (String.length PROMPT_TEMPLATE - String.length ("{transcript}" ++ nl))
          PROMPT_TEMPLATE.

(** A generation request for the transcript text: the prompt is the template
    with the text in its slot. *)
Definition prompt_of (transcript_text : string) (ev : event) : Prop :=
  match ev with
  | GenerateContent _ prompt _ _ =>
      prompt = PROMPT_HEAD ++ transcript_text ++ nl
  | _ => True
  end.

(** The characters that end the host of a URL or open a bracketed host, and
    those the URL parser removes. *)
Definition host_delimiters : string :=
  String "009" (String "013" (String "010" "/?#[]")).

(** The characters the URL parser removes from a URL. *)
Definition unsafe_bytes : string :=
  String "009" (String "013" (String "010" "")).

(** The characters that end a query. *)
Definition query_delimiters : string :=
  String "009" (String "013" (String "010" "#")).

Definition is_ValueError (e : exn) : Prop := exists msg, e = ValueError msg.

(** ** Further services used as examples *)

Module Scenarios.

(** The owner of the video disabled transcripts. *)
Definition disabled : Services := {|
  list_transcripts := fun _ =>
    Raise (TranscriptsDisabled "Subtitles are disabled for this video");
  get_transcript := get_transcript Stubs.english;
  GenerativeModel := GenerativeModel Stubs.english;
  generate_content := Stubs.echo
|}.

(** Both fetches fail: no English transcript, then a network error. *)
Definition unreachable : Services := {|
  list_transcripts := list_transcripts Stubs.english;
  get_transcript := fun _ languages =>
    match languages with
    | Some _ => Raise (NoTranscriptFound "No transcripts were found")
    | None => Raise (Exception_ "Connection reset by peer")
    end;
  GenerativeModel := GenerativeModel Stubs.english;
  generate_content := Stubs.echo
|}.


(** A generation service that refuses the request. *)
Definition refused : Services := {|
  list_transcripts := list_transcripts Stubs.english;
  get_transcript := get_transcript Stubs.english;
  GenerativeModel := GenerativeModel Stubs.english;
  generate_content := fun _ _ _ _ => Raise (Exception_ "429 quota exceeded")
|}.


End Scenarios.

(** The caption that closes the page. *)
Definition foot_caption : event :=
  StCaption "ℹ️ Note: Requires videos with available transcripts. Some content may be filtered by safety systems.".

(** An event other than the closing caption. *)
Definition before_foot (ev : event) : Prop := ev <> foot_caption.

(** An event other than a generation request. *)
Definition no_generation_request (ev : event) : Prop :=
  match ev with
  | GenerateContent _ _ _ _ => False
  | _ => True
  end.

(** The three requests the retriever can send for an identifier, in their
    order. *)
Definition retriever_requests (video_id : string) : list event :=
  [ListTranscripts video_id; GetTranscript video_id (Some ["en"]);
   GetTranscript video_id None].

(** A warning on the page. *)
Definition is_warning (ev : event) : bool :=
  match ev with
  | StWarning _ => true
  | _ => false
  end.

(** A generation request, the call of [generate_content]. *)
Definition is_generate_content (ev : event) : bool :=
  match ev with
  | GenerateContent _ _ _ _ => true
  | _ => false
  end.
(** * Properties *)

(** ** Strings, lists and dictionaries *)

Module PyFacts.

Import Py.

Lemma take_drop (n : nat) (s : string) : take n s ++ drop n s = s.
Proof.
  revert s; induction n as [|n IH]; intros [|c s]; simpl; trivial.
  now rewrite IH.
Qed.

(** A string that starts with [p] is [p] followed by the rest. *)
Lemma starts_with (p s : string) :
  (take (String.length p) s == p) = true ->
  s = p ++ drop (String.length p) s.
Proof.
  intros H. apply String.eqb_eq in H.
  rewrite <- H at 1. symmetry. apply take_drop.
Qed.

Lemma split_not_nil (sep : ascii) (s : string) : split sep s <> [].
Proof.
  destruct s as [|c s]; simpl; [discriminate|].
  destruct (Ascii.eqb c sep); [discriminate|].
  destruct (split sep s); discriminate.
Qed.

(** The first piece of a split is empty exactly when the string is empty or
    starts with the separator. *)
Lemma split_head_empty (sep : ascii) (s : string) :
  hd "" (split sep s) = "" <->
  s = "" \/ take 1 s = String sep "".
Proof.
  destruct s as [|c s]; simpl.
  - tauto.
  - destruct (Ascii.eqb_spec c sep) as [->|Hne].
    + simpl. destruct s; tauto.
    + destruct (split sep s); simpl; split; try discriminate;
        intros [H|H]; try discriminate;
        destruct s; injection H; intros; contradiction.
Qed.

Lemma split_single_empty (sep : ascii) (s : string) :
  split sep s = [""] -> s = "".
Proof.
  destruct s as [|c s]; simpl; trivial.
  destruct (Ascii.eqb c sep).
  - intros H. injection H as H. now apply split_not_nil in H.
  - destruct (split sep s); discriminate.
Qed.

Lemma replace_empty (c d : ascii) (s : string) : replace c d s = "" -> s = "".
Proof. destruct s; simpl; trivial; discriminate. Qed.

Lemma append_empty (s t : string) : s ++ t = "" -> s = "" /\ t = "".
Proof. destruct s; simpl; [auto | discriminate]. Qed.

Lemma append_nil_r (s : string) : s ++ "" = s.
Proof. induction s as [|c s IH]; simpl; [trivial | now rewrite IH]. Qed.

Lemma append_assoc (s t u : string) : (s ++ t) ++ u = s ++ t ++ u.
Proof. induction s as [|c s IH]; simpl; [trivial | now rewrite IH]. Qed.

Lemma truthy_the (v : option string) : truthy v = true -> the v <> "".
Proof. destruct v as [[|c s]|]; simpl; discriminate. Qed.

Lemma dict_lookup_all {V : Type} (P : V -> Prop) (d : dict V) key v :
  dict_all P d -> dict_lookup d key = Some v -> P v.
Proof.
  induction 1 as [|[k w] d Hw _ IH]; simpl; [discriminate|].
  destruct (k == key); [|exact IH].
  intros [= <-]. exact Hw.
Qed.

Lemma dict_set_all {V : Type} (P : V -> Prop) (d : dict V) key v :
  dict_all P d -> P v -> dict_all P (dict_set d key v).
Proof.
  intros Hd Hv. induction Hd as [|[k w] d Hw Hd IH]; simpl.
  - repeat constructor. exact Hv.
  - destruct (k == key); constructor; trivial.
Qed.

End PyFacts.

(** ** The URL library *)

Module urllibFacts.

Import Py PyFacts urllib.

Lemma unquote_item_not_empty (item : string) : unquote_item item <> "".
Proof.
  destruct item as [|a [|b rest]]; simpl; try discriminate.
  destruct (is_hex a && is_hex b); discriminate.
Qed.

(** Unquoting removes no text: only the empty string unquotes to the empty
    string. *)
Lemma unquote_empty (s : string) : unquote s = "" -> s = "".
Proof.
  unfold unquote. destruct (split "%" s) as [|first items] eqn:Hs; trivial.
  intros H. apply append_empty in H as [-> H].
  destruct items as [|item items].
  - now apply split_single_empty in Hs.
  - simpl in H. destruct items.
    + now apply unquote_item_not_empty in H.
    + apply append_empty in H as [H _].
      now apply unquote_item_not_empty in H.
Qed.

(** [parse_qsl] drops blank values ([keep_blank_values] is false). *)
Lemma parse_qsl_values (qs : string) :
  Forall (fun nv => snd nv <> "") (parse_qsl qs).
Proof.
  unfold parse_qsl. generalize (if qs == "" then [] else split "&" qs).
  intros args. induction args as [|name_value args IH]; simpl; [constructor|].
  apply Forall_app. split; [|exact IH].
  destruct (name_value == ""); [constructor|].
  destruct (partition "=" name_value) as [[name have_value] value].
  destruct have_value; simpl; [|constructor].
  destruct (value == "") eqn:Hv; constructor; [|constructor].
  simpl. intros H. apply unquote_empty, replace_empty in H.
  subst value. discriminate.
Qed.

Lemma parse_qs_values (qs : string) : dict_all values_ok (parse_qs qs).
Proof.
  unfold parse_qs.
  assert (Hacc : dict_all values_ok (@nil (string * list string)))
    by constructor.
  revert Hacc. generalize (@nil (string * list string)).
  induction (parse_qsl_values qs) as [|[name value] pairs Hv _ IH];
    intros acc Hacc; simpl; [exact Hacc|].
  apply IH. simpl in Hv.
  destruct (dict_lookup acc name) as [values|] eqn:Hl.
  - apply dict_set_all; trivial.
    destruct (dict_lookup_all _ _ _ _ Hacc Hl) as [_ Hall].
    split; [now destruct values | apply Forall_app; auto].
  - apply dict_set_all; trivial. split; [discriminate | auto].
Qed.

Lemma parse_qs_lookup (qs key : string) (values : list string) :
  dict_lookup (parse_qs qs) key = Some values ->
  exists v rest, values = v :: rest /\ v <> "".
Proof.
  intros H. destruct (dict_lookup_all _ _ _ _ (parse_qs_values qs) H)
    as [Hne Hall].
  destruct values as [|v rest]; [contradiction|].
  exists v, rest. split; trivial. now inversion Hall.
Qed.

End urllibFacts.

(** ** The identifier extractor *)

Module Extractor.

Import Py PyFacts urllib urllibFacts Spec.

(** On a path that begins with a route prefix, the third piece of the split
    path is the segment following the prefix. *)
Lemma third_piece (a b : string) (l : list string) :
  l <> [] -> list_get (a :: b :: l) 2 = Return (hd "" l).
Proof. destruct l; [contradiction | reflexivity]. Qed.

Lemma embed_segment (p : string) :
  (take 7 p == "/embed/") = true ->
  list_get (split "/" p) 2 = Return (hd "" (split "/" (drop 7 p))).
Proof.
  intros H. apply (starts_with "/embed/") in H.
  change (String.length "/embed/") with 7 in H.
  generalize dependent (drop 7 p). intros r ->.
  apply (third_piece "" "embed"), split_not_nil.
Qed.

Lemma v_segment (p : string) :
  (take 3 p == "/v/") = true ->
  list_get (split "/" p) 2 = Return (hd "" (split "/" (drop 3 p))).
Proof.
  intros H. apply (starts_with "/v/") in H.
  change (String.length "/v/") with 3 in H.
  generalize dependent (drop 3 p). intros r ->.
  apply (third_piece "" "v"), split_not_nil.
Qed.

(** What [get_video_id] does on a parsed URL, route by route. *)
Lemma get_video_id_parsed (url : string) (q : ParseResult) :
  urlparse url = Return q ->
  get_video_id url =
    if watch_without_v q then Raise (KeyError "v")
    else Return (program_cases q).
Proof.
  intros Hq. unfold get_video_id, watch_without_v, program_cases.
  rewrite Hq. cbn [result_bind].
  unfold short_link_domain, video_site_domains, video_site_route.
  destruct (equal (hostname q) "youtu.be"); [reflexivity|].
  destruct (member (hostname q) _); [|reflexivity]. cbn [negb andb].
  destruct (path q == "/watch") eqn:Hw.
  - unfold v_parameter, dict_get.
    destruct (dict_lookup _ "v") as [values|] eqn:Hv; [|reflexivity].
    apply parse_qs_lookup in Hv as (v & rest & -> & _). reflexivity.
  - cbn [andb]. unfold segment_following.
    change (String.length "/embed/") with 7.
    change (String.length "/v/") with 3.
    destruct (take 7 (path q) == "/embed/") eqn:He.
    + now rewrite embed_segment.
    + destruct (take 3 (path q) == "/v/") eqn:Hv; [|reflexivity].
      now rewrite v_segment.
Qed.

Lemma nothing_follows_spec (n : nat) (p : string) :
  hd "" (split "/" (drop n p)) = "" <-> nothing_follows n p = true.
Proof.
  unfold nothing_follows. rewrite split_head_empty, orb_true_iff.
  now rewrite !String.eqb_eq.
Qed.

(** The identifier of a recognized URL is empty exactly on the parse results
    singled out by [yields_empty_identifier]. *)
Lemma program_cases_empty (q : ParseResult) (id : string) :
  program_cases q = Some id ->
  id = "" <-> yields_empty_identifier q = true.
Proof.
  unfold program_cases, yields_empty_identifier, video_site_route.
  destruct (equal (hostname q) short_link_domain).
  { intros [= <-]. now rewrite String.eqb_eq. }
  destruct (member (hostname q) video_site_domains); [|discriminate].
  cbn [andb]. destruct (path q == "/watch").
  { unfold v_parameter.
    destruct (dict_lookup _ "v") as [values|] eqn:Hv; [|discriminate].
    apply parse_qs_lookup in Hv as (v & rest & -> & Hne).
    intros [= <-]. cbn. split; [contradiction | discriminate]. }
  cbn [negb andb]. unfold segment_following.
  change (String.length "/embed/") with 7.
  change (String.length "/v/") with 3.
  destruct (take 7 (path q) == "/embed/").
  { intros [= <-]. exact (nothing_follows_spec 7 (path q)). }
  destruct (take 3 (path q) == "/v/"); [|discriminate].
  intros [= <-]. exact (nothing_follows_spec 3 (path q)).
Qed.

End Extractor.

(** On the URL forms the specification lists, the program and the case
    analysis of the specification agree. *)
Example reference_agrees_on_listed_forms :
  Forall (fun url => get_video_id url = Return (Spec.reference_extraction url))
         ["https://youtu.be/abc123";
          "https://www.youtube.com/watch?v=abc123";
          "https://www.youtube.com/embed/abc123";
          "https://www.youtube.com/v/abc123";
          "https://example.com/watch?v=abc123"].
Proof. repeat constructor. Qed.

(** C1, as stated, fails: on a short link with more than one path segment
    the program returns everything after the leading slash, where the case
    analysis of the specification takes the first path segment. *)
Lemma get_video_id_differs_from_reference :
  get_video_id "https://youtu.be/a/b"
  <> Return (Spec.reference_extraction "https://youtu.be/a/b").
Proof. vm_compute. discriminate. Qed.

(** C1 (amended): for every URL that parses, other than a watch-page URL
    without a [v] parameter, [get_video_id] equals the case analysis in which
    a short-link host yields the whole path after its first character, a
    watch-page path of the video site yields the first value of [v], an embed
    or video-route path yields the path segment following the prefix, and
    every other host and path yields no identifier. *)
Theorem get_video_id_case_analysis (url : string) (q : urllib.ParseResult) :
  urllib.urlparse url = Return q ->
  Spec.watch_without_v q = false ->
  get_video_id url = Return (Spec.program_cases q).
Proof.
  intros Hq Hw. now rewrite (Extractor.get_video_id_parsed url q Hq), Hw.
Qed.

Lemma get_video_id_case_analysis_witness :
  let url := "https://youtube.com/embed/xyz/more?q=1#frag" in
  let q := {| urllib.scheme := "https"; urllib.netloc := "youtube.com";
              urllib.path := "/embed/xyz/more"; urllib.params := "";
              urllib.query := "q=1"; urllib.fragment := "frag" |} in
  urllib.urlparse url = Return q
  /\ Spec.watch_without_v q = false
  /\ get_video_id url = Return (Some "xyz").
Proof.
  split; [reflexivity|]. split; [reflexivity|].
  exact (get_video_id_case_analysis
           "https://youtube.com/embed/xyz/more?q=1#frag" _
           eq_refl eq_refl).
Defined.

(** C2: on a watch-page URL without a [v] parameter [get_video_id] raises
    [KeyError] instead of returning no identifier. *)
Theorem get_video_id_raises_without_v :
  get_video_id "https://www.youtube.com/watch" = Raise (KeyError "v").
Proof. reflexivity. Qed.

(** A second input on which [get_video_id] raises: the URL parser rejects an
    unbalanced bracket in the host. *)
Example get_video_id_raises_on_bracket :
  get_video_id "http://[" = Raise (ValueError "Invalid IPv6 URL").
Proof. reflexivity. Qed.

(** C9, as stated, fails: a short link with nothing after the slash is
    recognized and its identifier is the empty string. *)
Lemma get_video_id_returns_empty_identifier :
  ~ (forall url id, get_video_id url = Return (Some id) -> id <> "").
Proof.
  intros H. now apply (H "https://youtu.be/" "").
Qed.

(** C9 (amended): [get_video_id] has exactly one outcome.  When it is an
    identifier, the URL parsed and the identifier is empty exactly when
    nothing follows the first character of a short-link path or the segment
    after an embed or video-route prefix is empty; the identifier of a
    watch-page URL is never empty.  When it fails, it returns [None], raises
    [KeyError] for the missing [v], or raises what the URL parser raised. *)
Theorem get_video_id_outcomes (url : string) :
  match get_video_id url with
  | Return (Some id) =>
      exists q, urllib.urlparse url = Return q
                /\ (id = "" <-> Spec.yields_empty_identifier q = true)
  | Return None => True
  | Raise e => e = KeyError "v" \/ urllib.urlparse url = Raise e
  end.
Proof.
  destruct (urllib.urlparse url) as [q|e] eqn:Hq.
  - rewrite (Extractor.get_video_id_parsed url q Hq).
    destruct (Spec.watch_without_v q); [now left|].
    destruct (Spec.program_cases q) as [id|] eqn:Hid; [|exact I].
    exists q. split; [reflexivity|].
    now apply Extractor.program_cases_empty.
  - unfold get_video_id. rewrite Hq. cbn. now right.
Qed.

(** ** The effect monad *)

Module MFacts.

Section Preserves.

Context {A B : Type} (P : event -> Prop).

Lemma preserves_ret (a : A) : preserves P (ret a).
Proof. intros tr H. exact H. Qed.

Lemma preserves_raise (e : exn) : preserves P (@raise A e).
Proof. intros tr H. exact H. Qed.

Lemma preserves_lift (r : result A) : preserves P (lift r).
Proof. intros tr H. exact H. Qed.

Lemma preserves_emit (ev : event) : P ev -> preserves P (emit ev).
Proof.
  intros Hev tr H. cbn. apply Forall_app. split; [exact H|].
  now constructor.
Qed.

Lemma preserves_bind (m : M A) (k : A -> M B) :
  preserves P m -> (forall a, preserves P (k a)) -> preserves P (bind m k).
Proof.
  intros Hm Hk tr H. unfold bind. specialize (Hm tr H).
  destruct (m tr) as [[a|e] tr']; cbn in *; [now apply Hk | exact Hm].
Qed.

Lemma preserves_try_except (m : M A) (handler : exn -> option (M A)) :
  preserves P m ->
  (forall e h, handler e = Some h -> preserves P h) ->
  preserves P (try_except m handler).
Proof.
  intros Hm Hh tr H. unfold try_except. specialize (Hm tr H).
  destruct (m tr) as [[a|e] tr']; cbn in *; [exact Hm|].
  destruct (handler e) as [h|] eqn:He; [|exact Hm].
  now apply (Hh e h He).
Qed.

End Preserves.

(** The events a computation leaves in the trace when its result is known. *)
Lemma preserves_run {A : Type} (P : event -> Prop) (m : M A) tr r tr' :
  preserves P m -> Forall P tr -> m tr = (r, tr') -> Forall P tr'.
Proof. intros Hm H E. specialize (Hm tr H). now rewrite E in Hm. Qed.

End MFacts.

(** One step of a proof that a program only adds events satisfying a
    predicate: it follows the syntax of the program. *)
Ltac preserves_step :=
  lazymatch goal with
  | |- preserves _ (bind _ _) => apply MFacts.preserves_bind; [|intros ?]
  | |- preserves _ (ret _) => apply MFacts.preserves_ret
  | |- preserves _ (raise _) => apply MFacts.preserves_raise
  | |- preserves _ st_stop => apply MFacts.preserves_raise
  | |- preserves _ (lift _) => apply MFacts.preserves_lift
  | |- preserves _ (emit _) => apply MFacts.preserves_emit
  | |- preserves _ (try_except _ _) =>
      apply MFacts.preserves_try_except;
      [|let e := fresh "e" in
        let h := fresh "h" in
        let E := fresh "E" in
        intros e h E; destruct e; cbn in E;
        try discriminate E; injection E as <-]
  | |- preserves _ (if ?b then _ else _) => destruct b eqn:?
  | |- preserves _ (match ?x with _ => _ end) => destruct x eqn:?
  end.

(** ** The transcript retriever *)

Module Retriever.

Import Py PyFacts TranscriptSpec.

Lemma space_joined_acc (segments : list Segment) (acc : string) :
  space_joined acc segments = acc ++ space_joined "" segments.
Proof.
  revert acc. induction segments as [|s rest IH]; intros acc;
    cbn [space_joined].
  - now rewrite append_nil_r.
  - rewrite (IH (acc ++ " " ++ text s)), (IH ("" ++ " " ++ text s)).
    rewrite append_assoc. reflexivity.
Qed.

Lemma join_space_joined (x : string) (segments : list Segment) :
  join " " (x :: map text segments) = x ++ space_joined "" segments.
Proof.
  revert x. induction segments as [|s rest IH]; intros x.
  - simpl. now rewrite append_nil_r.
  - change (join " " (x :: map text (s :: rest)))
      with (x ++ " " ++ join " " (text s :: map text rest)).
    rewrite IH. cbn [space_joined].
    rewrite (space_joined_acc rest ("" ++ " " ++ text s)). reflexivity.
Qed.

(** [" ".join] of the segment texts is the transcript text of the
    specification. *)
Lemma join_TranscriptText (segments : list Segment) :
  join " " (map text segments) = TranscriptText segments.
Proof.
  destruct segments as [|s rest]; [reflexivity|].
  cbn [map TranscriptText]. rewrite join_space_joined.
  symmetry. apply space_joined_acc.
Qed.

Lemma split_no_separator (sep : ascii) (x : string) :
  contains sep x = false -> split sep x = [x].
Proof.
  induction x as [|c x IH]; cbn; [trivial|].
  rewrite Ascii.eqb_sym. intros H. apply orb_false_iff in H as [-> H].
  now rewrite (IH H).
Qed.

Lemma split_append (sep : ascii) (x rest : string) :
  contains sep x = false ->
  split sep (x ++ String sep rest) = x :: split sep rest.
Proof.
  induction x as [|c x IH]; cbn.
  - now rewrite Ascii.eqb_refl.
  - rewrite Ascii.eqb_sym. intros H. apply orb_false_iff in H as [-> H].
    now rewrite (IH H).
Qed.

(** Joining by spaces loses nothing: when no text holds a space, splitting
    the joined text at the spaces gives the texts back, in their order. *)
Lemma split_join (texts : list string) :
  texts <> [] ->
  Forall (fun t => contains " " t = false) texts ->
  split " " (join " " texts) = texts.
Proof.
  intros Hne Hall. induction Hall as [|t texts Ht Hall IH];
    [contradiction|].
  destruct texts as [|t' texts].
  - now apply split_no_separator.
  - change (join " " (t :: t' :: texts))
      with (t ++ String " " (join " " (t' :: texts))).
    rewrite (split_append " " t _ Ht). f_equal. now apply IH.
Qed.

Section WithServices.

Variable svc : Services.

(** The retriever only calls the transcript service with a non-empty
    identifier, and only adds notices otherwise. *)
Lemma extract_preserves (P : event -> Prop) (url : string) :
  (forall body, P (StError body)) ->
  (forall body, P (StWarning body)) ->
  (forall id, id <> "" -> P (ListTranscripts id)) ->
  (forall id languages, id <> "" -> P (GetTranscript id languages)) ->
  preserves P (extract_transcript_details svc url).
Proof.
  intros He Hw Hl Hg. unfold extract_transcript_details.
  repeat preserves_step; auto;
    match goal with
    | H : negb (truthy ?v) = false |- _ =>
        apply negb_false_iff, truthy_the in H; auto
    end.
Qed.

(** The retriever up to the fetches, for an identifier it accepts and a
    service that returns a listing: whatever is listed, the listing is true
    and the retriever goes on to the fetches. *)
Lemma extract_accepted (url id : string) (tl : TranscriptList) tr :
  get_video_id url = Return (Some id) -> id <> "" ->
  list_transcripts svc id = Return tl ->
  extract_transcript_details svc url tr =
    match get_transcript svc id (Some ["en"]) with
    | Return segments =>
        (Return (Some (join " " (map text segments))),
         (tr ++ [ListTranscripts id] ++ [GetTranscript id (Some ["en"])])%list)
    | Raise _ =>
        let tr' := (tr ++ [ListTranscripts id; GetTranscript id (Some ["en"]);
                           GetTranscript id None])%list in
        match get_transcript svc id None with
        | Return segments =>
            (Return (Some (join " " (map text segments))), tr')
        | Raise (TranscriptsDisabled _) =>
            (Return None,
             (tr' ++ [StError "❌ Transcripts are disabled for this video"])%list)
        | Raise (NoTranscriptFound _) =>
            (Return None,
             (tr' ++ [StError "🔍 No transcripts found for this video"])%list)
        | Raise e =>
            if is_Exception e
            then (Return None, (tr' ++ [StError ("⚠️ Error: " ++ str e)])%list)
            else (Raise e, tr')
        end
    end.
Proof.
  intros Hid Hne Hl.
  unfold extract_transcript_details, try_except, bind, lift, emit, ret.
  rewrite Hid. destruct id as [|c id]; [contradiction|].
  cbn [truthy negb the fst snd]. rewrite Hl.
  cbn [TranscriptList_truthy negb fst snd].
  destruct (get_transcript svc (String c id) (Some ["en"])) as [segments|e1].
  - now rewrite <- app_assoc.
  - cbv zeta. rewrite <- !app_assoc. cbn [app].
    destruct (get_transcript svc (String c id) None) as [segments|e2];
      [reflexivity|].
    destruct e2; cbn [is_Exception]; rewrite <- ?app_assoc; reflexivity.
Qed.

(** The requests of the retriever: the listing, the English fetch and the
    fallback fetch, in this order, up to the point where it stops. *)
Lemma extract_requests (url : string) tr :
  exists id k,
    requests (snd (extract_transcript_details svc url tr))
    = (requests tr
       ++ firstn k [ListTranscripts id; GetTranscript id (Some ["en"]);
                    GetTranscript id None])%list.
Proof.
  unfold extract_transcript_details, try_except, bind, lift, emit, ret.
  destruct (get_video_id url) as [v|e].
  - destruct (truthy v); cbn [negb].
    + exists (the v).
      destruct (list_transcripts svc (the v)) as [tl|e].
      * cbn [TranscriptList_truthy negb fst snd].
        destruct (get_transcript svc (the v) (Some ["en"])) as [segs|e1].
        { exists 2. unfold requests. cbn [snd fst].
          rewrite !filter_app. cbn. now rewrite <- app_assoc. }
        destruct (get_transcript svc (the v) None) as [segs|e2].
        { exists 3. unfold requests. cbn [snd fst].
          rewrite !filter_app. cbn. now rewrite <- !app_assoc. }
        exists 3. unfold requests.
        destruct e2; cbn [snd fst is_Exception];
          rewrite !filter_app; cbn; rewrite <- ?app_assoc, ?app_nil_r;
          reflexivity.
      * exists 1. unfold requests.
        destruct e; cbn [snd fst is_Exception];
          rewrite !filter_app; cbn; rewrite <- ?app_assoc, ?app_nil_r;
          reflexivity.
    + exists "", 0. unfold requests. cbn [snd].
      rewrite filter_app. cbn. reflexivity.
  - exists "", 0. unfold requests.
    destruct e; cbn [snd fst is_Exception firstn];
      rewrite ?filter_app; cbn; rewrite ?app_nil_r; reflexivity.
Qed.

(** The guard on the listing never fires: the retriever shows no warning,
    whatever the service answers. *)
Lemma extract_no_warning (url : string) tr :
  filter is_warning (snd (extract_transcript_details svc url tr))
  = filter is_warning tr.
Proof.
  unfold extract_transcript_details, try_except, bind, lift, emit, ret.
  destruct (get_video_id url) as [v|e].
  - destruct (truthy v); cbn [negb].
    + destruct (list_transcripts svc (the v)) as [tl|e].
      * cbn [TranscriptList_truthy negb fst snd].
        destruct (get_transcript svc (the v) (Some ["en"])) as [segs|e1].
        { cbn [snd fst]. rewrite !filter_app. cbn. now rewrite !app_nil_r. }
        destruct (get_transcript svc (the v) None) as [segs|e2].
        { cbn [snd fst]. rewrite !filter_app. cbn. now rewrite !app_nil_r. }
        destruct e2; cbn [snd fst is_Exception];
          rewrite !filter_app; cbn; now rewrite ?app_nil_r.
      * destruct e; cbn [snd fst is_Exception];
          rewrite !filter_app; cbn; now rewrite ?app_nil_r.
    + cbn [snd]. rewrite filter_app. cbn. now rewrite app_nil_r.
  - destruct e; cbn [snd fst is_Exception];
      rewrite ?filter_app; cbn; now rewrite ?app_nil_r.
Qed.

(** The retriever on an identifier it does not accept. *)
Lemma extract_falsy (url : string) (v : option string) tr :
  get_video_id url = Return v -> truthy v = false ->
  extract_transcript_details svc url tr =
    (Return None, (tr ++ [StError "⚠️ Invalid YouTube URL format"])%list).
Proof.
  intros Hid Hv.
  unfold extract_transcript_details, try_except, bind, lift, emit, ret.
  rewrite Hid, Hv. reflexivity.
Qed.

End WithServices.

End Retriever.

(** C3: when the fetch restricted to English raises, whatever it raises, the
    retriever fetches the default transcript once and fetches nothing else;
    when that fetch returns segments, the retriever returns their texts
    joined by spaces. *)
Theorem english_failure_falls_back_once
    (svc : Services) (url id : string) (tl : TranscriptList) (e : exn)
    (tr : list event) :
  get_video_id url = Return (Some id) -> id <> "" ->
  list_transcripts svc id = Return tl ->
  get_transcript svc id (Some ["en"]) = Raise e ->
  filter is_fetch (snd (extract_transcript_details svc url tr))
  = (filter is_fetch tr
     ++ [GetTranscript id (Some ["en"]); GetTranscript id None])%list
  /\ forall segments,
       get_transcript svc id None = Return segments ->
       extract_transcript_details svc url tr
       = (Return (Some (Py.join " " (map text segments))),
          (tr ++ [ListTranscripts id; GetTranscript id (Some ["en"]);
                  GetTranscript id None])%list).
Proof.
  intros Hid Hne Hl He.
  rewrite (Retriever.extract_accepted svc url id tl tr Hid Hne Hl), He.
  cbv zeta. split.
  - destruct (get_transcript svc id None) as [segments|e2].
    + cbn [snd]. now rewrite filter_app.
    + destruct e2; cbn [is_Exception snd];
        rewrite ?filter_app; cbn [filter is_fetch];
        now rewrite ?app_nil_r.
  - now intros segments ->.
Qed.

Lemma english_failure_falls_back_once_witness :
  get_transcript Stubs.no_english "abc" (Some ["en"])
  = Raise (NoTranscriptFound "No transcripts were found")
  /\ extract_transcript_details Stubs.no_english "https://youtu.be/abc" []
     = (Return (Some "Hello world"),
        [ListTranscripts "abc"; GetTranscript "abc" (Some ["en"]);
         GetTranscript "abc" None]).
Proof.
  split; [reflexivity|].
  refine (proj2 (english_failure_falls_back_once
                   Stubs.no_english "https://youtu.be/abc" "abc" ["de"]
                   (NoTranscriptFound "No transcripts were found") []
                   eq_refl _ eq_refl eq_refl)
                Stubs.hello_world eq_refl); discriminate.
Defined.

(** C4: for every sequence of segments the service returns for the
    transcript, from the English fetch or from the fallback, the retriever
    returns the transcript text of the specification: the segment texts in
    their order, joined by single spaces; splitting that text at the spaces
    gives the segment texts back when none of them holds a space. *)
Theorem transcript_text_is_space_joined
    (svc : Services) (url id : string) (tl : TranscriptList)
    (segments : list Segment) (tr : list event) :
  get_video_id url = Return (Some id) -> id <> "" ->
  list_transcripts svc id = Return tl ->
  get_transcript svc id (Some ["en"]) = Return segments
  \/ ((exists e, get_transcript svc id (Some ["en"]) = Raise e)
      /\ get_transcript svc id None = Return segments) ->
  fst (extract_transcript_details svc url tr)
  = Return (Some (TranscriptSpec.TranscriptText segments))
  /\ (segments <> [] ->
      Forall (fun s => Py.contains " " (text s) = false) segments ->
      Py.split " " (TranscriptSpec.TranscriptText segments)
      = map text segments).
Proof.
  intros Hid Hne Hl Hfetch. split.
  - rewrite (Retriever.extract_accepted svc url id tl tr Hid Hne Hl).
    rewrite <- Retriever.join_TranscriptText.
    destruct Hfetch as [-> | [[e ->] ->]]; reflexivity.
  - intros Hsegs Hall. rewrite <- Retriever.join_TranscriptText.
    apply Retriever.split_join.
    + now destruct segments.
    + now apply Forall_map.
Qed.

Lemma transcript_text_is_space_joined_witness :
  get_transcript Stubs.english "abc" (Some ["en"]) = Return Stubs.hello_world
  /\ fst (extract_transcript_details Stubs.english "https://youtu.be/abc" [])
     = Return (Some "Hello world").
Proof.
  split; [reflexivity|].
  refine (proj1 (transcript_text_is_space_joined
                   Stubs.english "https://youtu.be/abc" "abc" ["en"]
                   Stubs.hello_world [] eq_refl _ eq_refl
                   (or_introl eq_refl)));
    discriminate.
Defined.

(** The example of the specification. *)
Example hello_world_text :
  Py.join " " (map text Stubs.hello_world) = "Hello world".
Proof. reflexivity. Qed.

(** C10: when [get_video_id] returns [None] or the empty string, the
    retriever reports an invalid URL and returns no transcript without
    calling the transcript service; in every run of the retriever, each call
    to the transcript service carries a non-empty identifier. *)
Theorem falsy_identifier_is_rejected
    (svc : Services) (url : string) (tr : list event) :
  (forall v, get_video_id url = Return v -> Py.truthy v = false ->
     extract_transcript_details svc url tr
     = (Return None, (tr ++ [StError "⚠️ Invalid YouTube URL format"])%list))
  /\ (Forall nonempty_identifier tr ->
      Forall nonempty_identifier
             (snd (extract_transcript_details svc url tr))).
Proof.
  split.
  - intros v. apply Retriever.extract_falsy.
  - apply Retriever.extract_preserves; cbn; auto.
Qed.

Lemma falsy_identifier_is_rejected_witness :
  get_video_id "https://youtu.be/" = Return (Some "")
  /\ extract_transcript_details Stubs.english "https://youtu.be/" []
     = (Return None, [StError "⚠️ Invalid YouTube URL format"])
  /\ Forall nonempty_identifier
            (snd (extract_transcript_details Stubs.english
                    "https://youtu.be/abc" [])).
Proof.
  split; [reflexivity|]. split.
  - exact (proj1 (falsy_identifier_is_rejected
                    Stubs.english "https://youtu.be/" [])
                 (Some "") eq_refl eq_refl).
  - exact (proj2 (falsy_identifier_is_rejected
                    Stubs.english "https://youtu.be/abc" [])
                 (Forall_nil _)).
Defined.

(** ** The summary generator *)

Module Generator.

Import Py PyFacts.

(** The prompt is the template with the transcript in its single slot. *)
Lemma format_prompt :
  exists before,
    PROMPT_TEMPLATE = before ++ "{transcript}" ++ nl
    /\ forall transcript_text,
         format PROMPT_TEMPLATE [("transcript", transcript_text)]
         = Return (before ++ transcript_text ++ nl).
Proof.
  exists (take (String.length PROMPT_TEMPLATE - 13) PROMPT_TEMPLATE).
  split; [reflexivity|]. intros transcript_text. reflexivity.
Qed.

Lemma filter_load_models (names : list string) :
  filter is_generation_call (map LoadModel names) = map LoadModel names.
Proof. induction names as [|n names IH]; cbn; [trivial | now rewrite IH]. Qed.

Lemma filter_load_models_requests (names : list string) :
  filter is_request (map LoadModel names) = map LoadModel names.
Proof. induction names as [|n names IH]; cbn; [trivial | now rewrite IH]. Qed.

Section WithServices.

Variable svc : Services.

(** The loop over names that are all rejected tries each of them and keeps
    the last error. *)
Lemma load_model_rejected (errors : list exn) (names : list string) :
  Forall2 (rejects svc) errors names ->
  forall model last_error tr,
    load_model svc names model last_error tr
    = (Return (model, last_error_after errors last_error),
       (tr ++ map LoadModel names)%list).
Proof.
  induction 1 as [|e name errors names [Hr He] _ IH];
    intros model last_error tr; cbn [load_model map].
  - unfold ret. now rewrite app_nil_r.
  - unfold try_except, bind, emit, lift, ret. rewrite Hr, He.
    rewrite IH. now rewrite <- app_assoc.
Qed.

(** The loop stops at the first name the service accepts. *)
Lemma load_model_accepted (errors : list exn) (tried : list string)
    (name : string) (rest : list string) (m : genai.Model) :
  Forall2 (rejects svc) errors tried ->
  GenerativeModel svc name = Return m ->
  forall model last_error tr,
    load_model svc (tried ++ name :: rest) model last_error tr
    = (Return (Some m, last_error_after errors last_error),
       (tr ++ map LoadModel (tried ++ [name]))%list).
Proof.
  intros Hrej Hm.
  induction Hrej as [|e n errors tried [Hr He] _ IH];
    intros model last_error tr; cbn [load_model map app].
  - unfold try_except, bind, emit, lift, ret. now rewrite Hm.
  - unfold try_except, bind, emit, lift, ret. rewrite Hr, He.
    rewrite IH. now rewrite <- app_assoc.
Qed.

(** The loop asks for the names in their order, up to the point where it
    stops. *)
Lemma load_model_requests (names : list string) :
  forall model last_error tr,
  exists k,
    snd (load_model svc names model last_error tr)
    = (tr ++ map LoadModel (firstn k names))%list.
Proof.
  induction names as [|n names IH]; intros model last_error tr;
    cbn [load_model].
  - exists 0. unfold ret. cbn. now rewrite app_nil_r.
  - unfold try_except, bind, emit, lift, ret.
    destruct (GenerativeModel svc n) as [m|e].
    + exists 1. reflexivity.
    + destruct (is_Exception e).
      * cbn [fst snd].
        destruct (IH model (Some e) (tr ++ [LoadModel n])%list) as [k Hk].
        exists (S k). rewrite Hk. now rewrite <- app_assoc.
      * exists 1. reflexivity.
Qed.

(** The requests of the generator: the model names in their order, then at
    most one generation request. *)
Lemma generate_requests (transcript_text : string) tr :
  exists k tail,
    requests (snd (generate_gemini_content svc transcript_text tr))
    = (requests tr ++ map LoadModel (firstn k model_names_to_try) ++ tail)%list
    /\ (tail = [] \/ exists m prompt,
          tail = [GenerateContent m prompt safety_settings
                                  generation_config]).
Proof.
  unfold generate_gemini_content, try_except, bind.
  destruct (load_model_requests model_names_to_try None None tr) as [k Hk].
  exists k.
  destruct (load_model svc model_names_to_try None None tr)
    as [[[model last_error]|e] tr1]; cbn [snd] in Hk; subst tr1.
  - destruct model as [m|].
    + destruct format_prompt as (before & _ & Hprompt).
      unfold lift, emit, ret. rewrite Hprompt.
      exists [GenerateContent m (before ++ transcript_text ++ nl)
                safety_settings generation_config].
      split; [|right; eauto]. unfold requests.
      destruct (generate_content svc m _ _ _) as [response|e];
        [destruct (genai.text response) as [text|e]|];
        try destruct (is_Exception e); cbn [snd fst];
        rewrite !filter_app, filter_load_models_requests; cbn;
        rewrite <- ?app_assoc, ?app_nil_r; reflexivity.
    + exists []. split; [|now left]. unfold raise, emit, ret, requests.
      cbn [is_Exception snd fst].
      rewrite !filter_app, filter_load_models_requests. cbn.
      now rewrite !app_nil_r.
  - exists []. split; [|now left]. unfold emit, ret, requests.
    destruct (is_Exception e); cbn [snd fst];
      rewrite !filter_app, filter_load_models_requests; cbn;
      rewrite ?app_nil_r; reflexivity.
Qed.

Lemma load_model_preserves (P : event -> Prop) (names : list string) :
  (forall n, P (LoadModel n)) ->
  forall model last_error,
    preserves P (load_model svc names model last_error).
Proof.
  intros Hl. induction names as [|n names IH]; intros model last_error;
    cbn [load_model]; repeat preserves_step; auto.
Qed.

(** The generator only adds attempts to load a model, a generation request
    with the fixed settings, and a notice. *)
Lemma generate_preserves (P : event -> Prop) (transcript_text : string) :
  (forall n, P (LoadModel n)) ->
  (forall m prompt,
     P (GenerateContent m prompt safety_settings generation_config)) ->
  (forall body, P (StError body)) ->
  preserves P (generate_gemini_content svc transcript_text).
Proof.
  intros Hl Hg He. unfold generate_gemini_content.
  repeat preserves_step; auto using load_model_preserves.
Qed.

End WithServices.

End Generator.

(** C6: the generator tries the model names in the order of the list, stops
    at the first one the service accepts and sends the generation request to
    that model; when the service rejects every name, the generator makes no
    generation request and returns no summary, with a notice that carries the
    error of the last name tried. *)
Theorem model_candidates_in_order
    (svc : Services) (transcript_text : string) (tr : list event) :
  (forall tried name rest errors m,
     model_names_to_try = (tried ++ name :: rest)%list ->
     Forall2 (rejects svc) errors tried ->
     GenerativeModel svc name = Return m ->
     exists prompt,
       filter is_generation_call
              (snd (generate_gemini_content svc transcript_text tr))
       = (filter is_generation_call tr
          ++ map LoadModel (tried ++ [name])
          ++ [GenerateContent m prompt safety_settings generation_config])%list)
  /\ (forall e1 e2 e3,
     rejects svc e1 "gemini-1.5-pro-latest" ->
     rejects svc e2 "gemini-pro" ->
     rejects svc e3 "models/gemini-pro" ->
     generate_gemini_content svc transcript_text tr
     = (Return None,
        (tr ++ [LoadModel "gemini-1.5-pro-latest"; LoadModel "gemini-pro";
                LoadModel "models/gemini-pro";
                StError ("🚨 Generation failed: Could not load any model. Last error: "
                         ++ str e3)])%list)).
Proof.
  split.
  - intros tried name rest errors m Hnames Hrej Hm.
    destruct Generator.format_prompt as (before & _ & Hprompt).
    exists (before ++ transcript_text ++ nl).
    unfold generate_gemini_content, try_except, bind.
    rewrite Hnames.
    rewrite (Generator.load_model_accepted svc errors tried name rest m
               Hrej Hm).
    unfold lift, emit, ret. rewrite Hprompt.
    assert (Hcalls :
      filter is_generation_call
        ((tr ++ map LoadModel (tried ++ [name]))
         ++ [GenerateContent m (before ++ transcript_text ++ nl)
               safety_settings generation_config])
      = (filter is_generation_call tr
         ++ map LoadModel (tried ++ [name])
         ++ [GenerateContent m (before ++ transcript_text ++ nl)
               safety_settings generation_config])%list).
    { rewrite !filter_app, Generator.filter_load_models.
      now rewrite <- app_assoc. }
    destruct (generate_content svc m _ safety_settings generation_config)
      as [response|e].
    + destruct (genai.text response) as [text|e]; [exact Hcalls|].
      destruct (is_Exception e); cbn [snd]; [|exact Hcalls].
      rewrite filter_app, Hcalls. cbn. now rewrite app_nil_r.
    + destruct (is_Exception e); cbn [snd]; [|exact Hcalls].
      rewrite filter_app, Hcalls. cbn. now rewrite app_nil_r.
  - intros e1 e2 e3 H1 H2 H3.
    unfold generate_gemini_content, try_except, bind.
    rewrite (Generator.load_model_rejected svc [e1; e2; e3]
               model_names_to_try)
      by (repeat (constructor; [assumption|]); constructor).
    unfold raise, emit, ret. cbn [last_error_after fold_left is_Exception].
    now rewrite <- app_assoc.
Qed.

Lemma model_candidates_in_order_witness :
  (exists prompt,
     filter is_generation_call
            (snd (generate_gemini_content Stubs.english "Hello world" []))
     = [LoadModel "gemini-1.5-pro-latest"; LoadModel "gemini-pro";
        GenerateContent {| genai.model_name := "gemini-pro" |} prompt
                        safety_settings generation_config])
  /\ generate_gemini_content Stubs.no_model "Hello world" []
     = (Return None,
        [LoadModel "gemini-1.5-pro-latest"; LoadModel "gemini-pro";
         LoadModel "models/gemini-pro";
         StError "🚨 Generation failed: Could not load any model. Last error: 404 models/models/gemini-pro is not found"]).
Proof.
  split.
  - refine (proj1 (model_candidates_in_order Stubs.english "Hello world" [])
                  ["gemini-1.5-pro-latest"] "gemini-pro"
                  ["models/gemini-pro"]
                  [Exception_ "404 models/gemini-1.5-pro-latest is not found"]
                  {| genai.model_name := "gemini-pro" |} eq_refl _ eq_refl).
    constructor; [split; reflexivity | constructor].
  - refine (proj2 (model_candidates_in_order Stubs.no_model "Hello world" [])
                  _ _ _ (conj eq_refl eq_refl) (conj eq_refl eq_refl)
                  (conj eq_refl eq_refl)).
Defined.

(** ** The interaction shell *)

Module Shell.

Import Py PyFacts.

Section WithServices.

Variable svc : Services.

(** A run without a click on the button. *)
Lemma script_idle (w : Widgets) :
  generate_summary w = false ->
  script svc w [] = (Return tt, (page_head ++ page_foot)%list).
Proof.
  intros Hb. unfold script, bind, emit, ret. rewrite Hb. reflexivity.
Qed.

(** A click without a URL. *)
Lemma script_without_link (w : Widgets) :
  generate_summary w = true -> youtube_link w = "" ->
  script svc w []
  = (Raise StopException,
     (page_head ++ [StWarning "Please enter a YouTube URL"])%list).
Proof.
  intros Hb Hl. unfold script, bind, emit, ret, st_stop, raise.
  rewrite Hb, Hl. reflexivity.
Qed.

(** A click with a URL: the retriever, then the generator, then the
    summary with its download buttons. *)
Lemma script_clicked (w : Widgets) :
  generate_summary w = true -> youtube_link w <> "" ->
  script svc w [] =
    match extract_transcript_details svc (youtube_link w)
            (page_head ++ [StSpinner "🔍 Extracting transcript..."])%list with
    | (Raise e, tr1) => (Raise e, tr1)
    | (Return transcript, tr1) =>
        if negb (truthy transcript) then (Raise StopException, tr1)
        else
          match generate_gemini_content svc (the transcript)
                  (tr1 ++ [StSpinner "🧠 Generating summary (this may take a minute)..."])%list with
          | (Raise e, tr2) => (Raise e, tr2)
          | (Return summary, tr2) =>
              if truthy summary then
                (Return tt,
                 (tr2 ++ [StSuccess "✅ Summary generated successfully!";
                          StMarkdown "---"; StSubheader "Summary";
                          StWrite (the summary)]
                      ++ download_buttons (the summary) ++ page_foot)%list)
              else
                (Return tt,
                 (tr2 ++ [StError "Failed to generate summary. Please try a different video or check your API key permissions."]
                      ++ page_foot)%list)
          end
    end.
Proof.
  intros Hb Hl. apply String.eqb_neq in Hl.
  unfold script, bind, emit, ret, st_stop, raise. rewrite Hb, Hl.
  cbn [app fst snd].
  destruct (extract_transcript_details svc (youtube_link w) _)
    as [[transcript|e] tr1]; [|reflexivity].
  destruct (truthy transcript); cbn [negb]; [|reflexivity].
  destruct (generate_gemini_content svc (the transcript) _)
    as [[summary|e] tr2]; [|reflexivity].
  destruct (truthy summary); cbn [app];
    rewrite <- ?app_assoc; reflexivity.
Qed.

(** The script only sends generation requests with the fixed settings. *)
Lemma script_fixed_configuration (w : Widgets) :
  preserves fixed_configuration (script svc w).
Proof.
  unfold script. repeat preserves_step;
    try apply Retriever.extract_preserves;
    try apply Generator.generate_preserves; cbn; auto.
Qed.





Lemma requests_app (tr tr' : list event) :
  requests (tr ++ tr') = (requests tr ++ requests tr')%list.
Proof. apply filter_app. Qed.

(** The possible requests of a run are pairwise different. *)
Lemma requests_shape_NoDup (id : string) (k k' : nat) (tail : list event) :
  tail = [] \/ (exists m prompt,
                  tail = [GenerateContent m prompt safety_settings
                                          generation_config]) ->
  NoDup (firstn k [ListTranscripts id; GetTranscript id (Some ["en"]);
                   GetTranscript id None]
         ++ map LoadModel (firstn k' model_names_to_try) ++ tail).
Proof.
  intros Htail.
  destruct k as [|[|[|k]]]; destruct k' as [|[|[|k']]];
    destruct Htail as [-> | (m & prompt & ->)];
    cbn; rewrite ?firstn_nil; cbn;
    repeat (constructor; [cbn; intuition discriminate|]); constructor.
Qed.

(** A run of the script sends no request twice. *)
Lemma run_requests_once (w : Widgets) : NoDup (requests (run svc w)).
Proof.
  unfold run. destruct (generate_summary w) eqn:Hb.
  2: { rewrite script_idle by assumption. constructor. }
  destruct (String.eqb_spec (youtube_link w) "") as [Hl|Hl].
  { rewrite script_without_link by assumption. constructor. }
  rewrite (script_clicked w Hb Hl).
  destruct (Retriever.extract_requests svc (youtube_link w)
              (page_head ++ [StSpinner "🔍 Extracting transcript..."]))
    as (id & k & Hk).
  change (requests (page_head ++ _)) with (@nil event) in Hk.
  cbn [app] in Hk.
  assert (Hfirst := requests_shape_NoDup id k 0 [] (or_introl eq_refl)).
  cbn [firstn map app] in Hfirst. rewrite app_nil_r in Hfirst.
  destruct (extract_transcript_details svc (youtube_link w) _)
    as [[transcript|e] tr1]; cbn [snd] in Hk |- *;
    [|now rewrite Hk].
  destruct (truthy transcript); cbn [negb snd]; [|now rewrite Hk].
  destruct (Generator.generate_requests svc (the transcript)
              (tr1 ++ [StSpinner "🧠 Generating summary (this may take a minute)..."]))
    as (k' & tail & Hk' & Htail).
  rewrite requests_app, Hk in Hk'. cbn [requests filter is_request] in Hk'.
  rewrite app_nil_r in Hk'.
  assert (Hall := requests_shape_NoDup id k k' tail Htail).
  rewrite <- Hk' in Hall.
  destruct (generate_gemini_content svc (the transcript) _)
    as [[summary|e] tr2]; cbn [snd] in Hall |- *; [|exact Hall].
  destruct (truthy summary); cbn [snd];
    rewrite requests_app; cbn; now rewrite app_nil_r.
Qed.

End WithServices.

End Shell.

(** C5: the guard on the listing is dead code.  When the transcript service
    returns a listing with no transcript in it and answers both fetches with
    [NoTranscriptFound], the retriever does not stop at the listing: it sends
    the English fetch and the fallback fetch and reports the error that no
    transcripts were found, not the warning that no transcripts are
    available.  It still returns no transcript text, the script stops there,
    and the run contains no call to the generation service.  For every
    service and every URL the retriever adds no warning to the page. *)
Theorem empty_listing_is_not_reported
    (svc : Services) (w : Widgets) (id msg1 msg2 : string) :
  generate_summary w = true ->
  get_video_id (youtube_link w) = Return (Some id) -> id <> "" ->
  list_transcripts svc id = Return [] ->
  get_transcript svc id (Some ["en"]) = Raise (NoTranscriptFound msg1) ->
  get_transcript svc id None = Raise (NoTranscriptFound msg2) ->
  (forall tr,
     extract_transcript_details svc (youtube_link w) tr
     = (Return None,
        (tr ++ [ListTranscripts id; GetTranscript id (Some ["en"]);
                GetTranscript id None;
                StError "🔍 No transcripts found for this video"])%list))
  /\ script svc w []
     = (Raise StopException,
        (page_head
         ++ [StSpinner "🔍 Extracting transcript..."; ListTranscripts id;
             GetTranscript id (Some ["en"]); GetTranscript id None;
             StError "🔍 No transcripts found for this video"])%list)
  /\ filter is_generation_call (run svc w) = []
  /\ forall (svc' : Services) (url : string) (tr : list event),
       filter is_warning (snd (extract_transcript_details svc' url tr))
       = filter is_warning tr.
Proof.
  intros Hb Hid Hne Hl He1 He2.
  assert (Hlink : youtube_link w <> "").
  { intros E. rewrite E in Hid. discriminate Hid. }
  assert (Hret : forall tr,
     extract_transcript_details svc (youtube_link w) tr
     = (Return None,
        (tr ++ [ListTranscripts id; GetTranscript id (Some ["en"]);
                GetTranscript id None;
                StError "🔍 No transcripts found for this video"])%list)).
  { intros tr.
    rewrite (Retriever.extract_accepted svc (youtube_link w) id [] tr
               Hid Hne Hl), He1, He2.
    cbv zeta. now rewrite <- app_assoc. }
  assert (Hrun : script svc w []
     = (Raise StopException,
        (page_head
         ++ [StSpinner "🔍 Extracting transcript..."; ListTranscripts id;
             GetTranscript id (Some ["en"]); GetTranscript id None;
             StError "🔍 No transcripts found for this video"])%list)).
  { rewrite (Shell.script_clicked svc w Hb Hlink), Hret. reflexivity. }
  split; [exact Hret|]. split; [exact Hrun|]. split.
  - unfold run. rewrite Hrun. reflexivity.
  - intros svc' url tr. apply Retriever.extract_no_warning.
Qed.

Lemma empty_listing_is_not_reported_witness :
  list_transcripts Stubs.no_transcripts "abc123" = Return []
  /\ script Stubs.no_transcripts Stubs.watch_abc123 []
     = (Raise StopException,
        (page_head
         ++ [StSpinner "🔍 Extracting transcript..."; ListTranscripts "abc123";
             GetTranscript "abc123" (Some ["en"]); GetTranscript "abc123" None;
             StError "🔍 No transcripts found for this video"])%list)
  /\ filter is_generation_call (run Stubs.no_transcripts Stubs.watch_abc123)
     = []
  /\ forall (svc' : Services) (url : string) (tr : list event),
       filter is_warning (snd (extract_transcript_details svc' url tr))
       = filter is_warning tr.
Proof.
  split; [reflexivity|].
  refine (proj2 (empty_listing_is_not_reported
                   Stubs.no_transcripts Stubs.watch_abc123 "abc123"
                   "No transcripts were found" "No transcripts were found"
                   eq_refl eq_refl _ eq_refl eq_refl eq_refl)).
  discriminate.
Defined.



(** The end-to-end scenario of the specification: the watch URL for [abc123],
    a service that accepts the model name [gemini-pro] and echoes its prompt;
    the text download is the rendered prompt, the Markdown download is the
    same text under the heading. *)
Example downloads_of_echoed_prompt :
  exists prompt,
    format PROMPT_TEMPLATE [("transcript", "Hello world")] = Return prompt
    /\ filter is_download (run Stubs.english Stubs.watch_abc123)
       = [StDownloadButton "Download as TXT" prompt
                           "youtube_summary.txt" "text/plain";
          StDownloadButton "Download as MD"
                           ("# YouTube Summary" ++ nl ++ nl ++ prompt)
                           "youtube_summary.md" "text/markdown"].
Proof. eexists. split; reflexivity. Qed.

(** * Further properties *)

From Stdlib Require Import Lia.

(** ** The URL parser on plain web addresses *)

Module Url.

Import Py PyFacts urllib.

Lemma free_of_contains (chars s : string) (c : ascii) :
  free_of chars s = true -> contains c chars = true -> contains c s = false.
Proof.
  intros Hs Hc. unfold free_of in Hs.
  induction s as [|d s IH]; cbn [all contains] in *; [reflexivity|].
  apply andb_true_iff in Hs as [Hd Hs].
  rewrite (IH Hs), orb_false_r.
  destruct (Ascii.eqb_spec d c) as [->|]; [|reflexivity].
  now rewrite Hc in Hd.
Qed.

Lemma free_of_weaken (chars chars' s : string) :
  (forall c, contains c chars' = true -> contains c chars = true) ->
  free_of chars s = true -> free_of chars' s = true.
Proof.
  intros Hsub. unfold free_of.
  induction s as [|d s IH]; cbn [all]; [reflexivity|].
  intros H. apply andb_true_iff in H as [Hd H]. rewrite (IH H), andb_true_r.
  apply negb_true_iff in Hd. apply negb_true_iff.
  destruct (contains d chars') eqn:E; [|reflexivity].
  now rewrite (Hsub d E) in Hd.
Qed.

(** Inclusion of one explicit set of characters in another. *)
Ltac included :=
  let c := fresh "c" in
  let H := fresh "H" in
  intros c H; cbv -[Ascii.eqb] in H |- *;
  repeat match goal with
         | |- context [Ascii.eqb ?a c] => destruct (Ascii.eqb a c)
         end;
  first [reflexivity | discriminate H].

Lemma remove_absent (c : ascii) (s : string) :
  contains c s = false -> remove c s = s.
Proof.
  induction s as [|d s IH]; cbn; [reflexivity|].
  intros H. apply orb_false_iff in H as [-> H]. now rewrite (IH H).
Qed.

Lemma find_absent (c : ascii) (s : string) :
  contains c s = false -> find c s = None.
Proof.
  induction s as [|d s IH]; cbn; [reflexivity|].
  intros H. apply orb_false_iff in H as [-> H]. now rewrite (IH H).
Qed.

Lemma partition_absent (c : ascii) (s : string) :
  contains c s = false -> partition c s = (s, false, "").
Proof.
  induction s as [|d s IH]; cbn; [reflexivity|].
  intros H. apply orb_false_iff in H as [-> H]. now rewrite (IH H).
Qed.

Lemma replace_absent (c d : ascii) (s : string) :
  contains c s = false -> replace c d s = s.
Proof.
  induction s as [|x s IH]; cbn; [reflexivity|].
  intros H. apply orb_false_iff in H as [-> H]. now rewrite (IH H).
Qed.


Lemma remove_unsafe_absent (u : string) :
  contains "009" u = false -> contains "013" u = false ->
  contains "010" u = false ->
  fold_left (fun u b => remove b u) _UNSAFE_URL_BYTES_TO_REMOVE u = u.
Proof.
  intros Ht Hr Hn. cbn [fold_left _UNSAFE_URL_BYTES_TO_REMOVE].
  now rewrite (remove_absent _ _ Ht), (remove_absent _ _ Hr),
    (remove_absent _ _ Hn).
Qed.



Lemma find_app_absent (c : ascii) (a b : string) :
  contains c a = false ->
  find c (a ++ b) = option_map (Nat.add (String.length a)) (find c b).
Proof.
  induction a as [|d a IH]; cbn.
  - intros _. now destruct (find c b).
  - intros H. apply orb_false_iff in H as [-> H]. rewrite (IH H).
    now destruct (find c b).
Qed.

Lemma take_app_length (a b : string) : take (String.length a) (a ++ b) = a.
Proof. induction a as [|d a IH]; cbn; [now destruct b | now rewrite IH]. Qed.

Lemma drop_app_length (a b : string) : drop (String.length a) (a ++ b) = b.
Proof. induction a as [|d a IH]; cbn; [now destruct b | exact IH]. Qed.

Lemma length_append (a b : string) :
  String.length (a ++ b) = String.length a + String.length b.
Proof. induction a as [|d a IH]; cbn; [reflexivity | now rewrite IH]. Qed.

(** The netloc of a URL ends at the first slash after the two slashes that
    open it. *)
Lemma splitnetloc_host (host p : string) :
  contains "/" host = false -> contains "?" host = false ->
  contains "#" host = false ->
  _splitnetloc ("//" ++ host ++ "/" ++ p) 2 = (host, "/" ++ p).
Proof.
  intros Hs Hq Hh.
  unfold _splitnetloc, find_from. cbn [fold_left].
  change (drop 2 ("//" ++ host ++ "/" ++ p)) with (host ++ "/" ++ p).
  rewrite (find_app_absent "/" host _ Hs), (find_app_absent "?" host _ Hq),
    (find_app_absent "#" host _ Hh).
  change (find "/" ("/" ++ p)) with (Some 0).
  change (find "?" ("/" ++ p)) with (option_map S (find "?" p)).
  change (find "#" ("/" ++ p)) with (option_map S (find "#" p)).
  change (String.length ("//" ++ host ++ "/" ++ p))
    with (S (S (String.length (host ++ "/" ++ p)))).
  rewrite length_append. cbn [option_map String.length append].
  set (n := String.length host).
  assert (E : forall o : option nat,
            match option_map (Nat.add 2)
                    (option_map (Nat.add n) (option_map S o)) with
            | Some w => Nat.min (2 + n) w
            | None => 2 + n
            end = 2 + n).
  { intros [w|]; cbn [option_map]; lia. }
  replace (Nat.min (S (S (n + S (String.length p)))) (2 + (n + 0)))
    with (2 + n) by lia.
  rewrite !E.
  replace (2 + n - 2) with n by lia. subst n.
  rewrite take_app_length.
  change (2 + String.length host) with (S (S (String.length host))).
  cbn [drop]. now rewrite drop_app_length.
Qed.


Lemma contains_app (c : ascii) (a b : string) :
  contains c (a ++ b) = contains c a || contains c b.
Proof.
  induction a as [|d a IH]; cbn; [reflexivity|].
  now rewrite IH, orb_assoc.
Qed.



(** The split of an [http] or [https] URL with a plain host: the netloc is
    the host, the rest is cut at the first [#] and then at the first [?]. *)
Lemma urlsplit_web (sch host p : string) :
  sch = "http" \/ sch = "https" ->
  free_of host_delimiters host = true ->
  free_of unsafe_bytes p = true ->
  urlsplit (sch ++ "://" ++ host ++ "/" ++ p)
  = let '(url, _, fragment) := partition "#" ("/" ++ p) in
    let '(url, _, query) := partition "?" url in
    Return (sch, host, url, query, fragment).
Proof.
  intros Hsch Hhost Hp.
  assert (Hunsafe : forall c,
            contains c sch = false -> contains c "://" = false ->
            contains c "/" = false ->
            contains c host_delimiters = true ->
            contains c unsafe_bytes = true ->
            contains c (sch ++ "://" ++ host ++ "/" ++ p) = false).
  { intros c Hc Hc' Hc'' Hd Hu. rewrite !contains_app.
    now rewrite (free_of_contains _ host c Hhost Hd),
      (free_of_contains _ p c Hp Hu), Hc, Hc', Hc''. }
  assert (Hclean :
            fold_left (fun u b => remove b u) _UNSAFE_URL_BYTES_TO_REMOVE
                      (sch ++ "://" ++ host ++ "/" ++ p)
            = sch ++ "://" ++ host ++ "/" ++ p).
  { apply remove_unsafe_absent; apply Hunsafe;
      try reflexivity; destruct Hsch as [-> | ->]; reflexivity. }
  assert (Hnet := splitnetloc_host host p
             (free_of_contains _ _ "/" Hhost eq_refl)
             (free_of_contains _ _ "?" Hhost eq_refl)
             (free_of_contains _ _ "#" Hhost eq_refl)).
  assert (Hopen := free_of_contains _ _ "[" Hhost eq_refl).
  assert (Hclose := free_of_contains _ _ "]" Hhost eq_refl).
  unfold urlsplit. cbv zeta.
  replace (lstrip c0_control_or_space (sch ++ "://" ++ host ++ "/" ++ p))
    with (sch ++ "://" ++ host ++ "/" ++ p)
    by (destruct Hsch as [-> | ->]; reflexivity).
  rewrite Hclean.
  replace (find ":" (sch ++ "://" ++ host ++ "/" ++ p))
    with (Some (String.length sch))
    by (destruct Hsch as [-> | ->]; reflexivity).
  cbv iota beta.
  replace ((0 <? String.length sch)
           && all is_alpha (take 1 (sch ++ "://" ++ host ++ "/" ++ p))
           && all scheme_char
                (take (String.length sch) (sch ++ "://" ++ host ++ "/" ++ p)))
    with true by (destruct Hsch as [-> | ->]; reflexivity).
  cbv iota beta.
  replace (lower (take (String.length sch)
                       (sch ++ "://" ++ host ++ "/" ++ p)))
    with sch by (destruct Hsch as [-> | ->]; reflexivity).
  replace (drop (String.length sch + 1) (sch ++ "://" ++ host ++ "/" ++ p))
    with ("//" ++ host ++ "/" ++ p)
    by (destruct Hsch as [-> | ->]; reflexivity).
  change (take 2 ("//" ++ host ++ "/" ++ p) == "//") with true.
  cbv iota beta. rewrite Hnet. cbv iota beta. rewrite Hopen, Hclose.
  cbn [andb orb negb result_bind].
  destruct (partition "#" ("/" ++ p)) as [[url b] fragment].
  destruct (partition "?" url) as [[url' b'] query].
  reflexivity.
Qed.

Lemma partition_app_absent (c : ascii) (a b : string) :
  contains c a = false ->
  partition c (a ++ b)
  = let '(x, found, y) := partition c b in (a ++ x, found, y).
Proof.
  induction a as [|d a IH]; cbn [append contains partition].
  - intros _. now destruct (partition c b) as [[x found] y].
  - intros H. apply orb_false_iff in H as [-> H]. rewrite (IH H).
    now destruct (partition c b) as [[x found] y].
Qed.

(** The parse of an [http] or [https] URL with a plain host whose path and
    query hold none of the characters that the parser removes or cuts at. *)
Lemma urlparse_web (sch host p q : string) :
  sch = "http" \/ sch = "https" ->
  free_of host_delimiters host = true ->
  free_of path_delimiters p = true ->
  free_of query_delimiters q = true ->
  urlparse (sch ++ "://" ++ host ++ "/" ++ p ++ "?" ++ q)
  = Return {| scheme := sch; netloc := host; path := "/" ++ p;
              params := ""; query := q; fragment := "" |}
  /\ urlparse (sch ++ "://" ++ host ++ "/" ++ p)
     = Return {| scheme := sch; netloc := host; path := "/" ++ p;
                 params := ""; query := ""; fragment := "" |}.
Proof.
  intros Hsch Hhost Hp Hq.
  assert (Hp' : free_of unsafe_bytes p = true)
    by (apply (free_of_weaken path_delimiters); [included | exact Hp]).
  assert (Hq' : free_of unsafe_bytes q = true)
    by (revert Hq; apply free_of_weaken; included).
  assert (Hpq : free_of unsafe_bytes (p ++ "?" ++ q) = true).
  { unfold free_of in *. clear -Hp' Hq'.
    induction p as [|d p IH]; cbn [append all] in *.
    - exact Hq'.
    - apply andb_true_iff in Hp' as [-> Hp']. now apply IH. }
  assert (Hparams :
            (existsb (String.eqb sch) uses_params
             && contains ";" ("/" ++ p)) = false).
  { change (contains ";" ("/" ++ p)) with (contains ";" p).
    now rewrite (free_of_contains _ _ ";" Hp eq_refl), andb_false_r. }
  unfold urlparse. split.
  - rewrite (urlsplit_web sch host (p ++ "?" ++ q) Hsch Hhost Hpq).
    change ("/" ++ p ++ "?" ++ q) with (("/" ++ p) ++ "?" ++ q).
    rewrite (partition_app_absent "#" ("/" ++ p)),
      (partition_app_absent "#" "?"),
      (partition_absent "#" q (free_of_contains _ _ "#" Hq eq_refl));
      [| reflexivity | exact (free_of_contains _ _ "#" Hp eq_refl)].
    cbv iota beta.
    rewrite (partition_app_absent "?" ("/" ++ p));
      [| exact (free_of_contains _ _ "?" Hp eq_refl)].
    change (partition "?" ("?" ++ q)) with ("", true, q).
    cbv iota beta. cbn [result_bind].
    rewrite !append_nil_r, Hparams. reflexivity.
  - rewrite (urlsplit_web sch host p Hsch Hhost Hp').
    rewrite (partition_absent "#" ("/" ++ p)
               (free_of_contains _ _ "#" Hp eq_refl)).
    cbv iota beta.
    rewrite (partition_absent "?" ("/" ++ p)
               (free_of_contains _ _ "?" Hp eq_refl)).
    cbv iota beta. cbn [result_bind]. rewrite Hparams. reflexivity.
Qed.

Lemma unquote_plain (s : string) : contains "%" s = false -> unquote s = s.
Proof.
  intros H. unfold unquote.
  rewrite (Retriever.split_no_separator "%" s H). cbn [map String.concat].
  apply append_nil_r.
Qed.

(** A query that is the single field [v] with a plain, non-empty value. *)
Lemma parse_qs_v (id : string) :
  id <> "" -> free_of value_delimiters id = true ->
  parse_qs ("v=" ++ id) = [("v", [id])].
Proof.
  intros Hne H.
  assert (Hamp := free_of_contains _ _ "&" H eq_refl).
  assert (Hpct := free_of_contains _ _ "%" H eq_refl).
  assert (Hplus := free_of_contains _ _ "+" H eq_refl).
  unfold parse_qs, parse_qsl.
  change ("v=" ++ id == "") with false. cbv iota.
  rewrite (Retriever.split_no_separator "&" ("v=" ++ id) Hamp).
  cbn [flat_map].
  change ("v=" ++ id == "") with false. cbv iota.
  change (partition "=" ("v=" ++ id)) with ("v", true, id).
  cbv iota beta. cbn [negb].
  destruct (String.eqb_spec id "") as [E|_]; [contradiction|].
  rewrite (replace_absent "+" " " id Hplus), (unquote_plain id Hpct).
  reflexivity.
Qed.

(** The URL parser raises nothing but [ValueError]. *)
Ltac break_raise H :=
  repeat match type of H with
         | Raise _ = Raise _ => injection H as <-; eexists; reflexivity
         | Return _ = Raise _ => discriminate H
         | context [if ?b then _ else _] => destruct b
         | context [match ?x with _ => _ end] => destruct x
         end.

Lemma check_bracketed_host_raises (hostname : string) (e : exn) :
  _check_bracketed_host hostname = Raise e -> is_ValueError e.
Proof. unfold _check_bracketed_host. intros H. break_raise H. Qed.

Lemma check_bracketed_netloc_raises (netloc : string) (e : exn) :
  _check_bracketed_netloc netloc = Raise e -> is_ValueError e.
Proof.
  unfold _check_bracketed_netloc. intros H.
  destruct (rpartition "@" netloc) as [[a b] hp].
  destruct (partition "[" hp) as [[before have] bracketed].
  destruct have.
  - destruct (negb (before == "")); [break_raise H|].
    destruct (partition "]" bracketed) as [[h b'] port].
    destruct (negb (port == "") && negb (take 1 port == ":"));
      [break_raise H|].
    now apply check_bracketed_host_raises in H.
  - destruct (partition ":" hp) as [[h b'] port].
    now apply check_bracketed_host_raises in H.
Qed.

Lemma urlsplit_raises (url : string) (e : exn) :
  urlsplit url = Raise e -> is_ValueError e.
Proof.
  unfold urlsplit. cbv zeta.
  destruct (match find ":" _ with Some _ => _ | None => _ end)
    as [scheme url1].
  destruct (take 2 url1 == "//").
  - destruct (_splitnetloc url1 2) as [netloc url2].
    destruct (contains "[" netloc && negb (contains "]" netloc)
              || contains "]" netloc && negb (contains "[" netloc)).
    { cbn [result_bind]. intros H. break_raise H. }
    destruct (contains "[" netloc && contains "]" netloc).
    + destruct (_check_bracketed_netloc netloc) as [[]|e'] eqn:E.
      * cbn [result_bind].
        destruct (partition "#" url2) as [[u b] f].
        destruct (partition "?" u) as [[u' b'] q]. discriminate.
      * cbn [result_bind]. intros [= <-].
        now apply check_bracketed_netloc_raises in E.
    + cbn [result_bind].
      destruct (partition "#" url2) as [[u b] f].
      destruct (partition "?" u) as [[u' b'] q]. discriminate.
  - cbn [result_bind].
    destruct (partition "#" url1) as [[u b] f].
    destruct (partition "?" u) as [[u' b'] q]. discriminate.
Qed.

Lemma urlparse_raises (url : string) (e : exn) :
  urlparse url = Raise e -> is_ValueError e.
Proof.
  unfold urlparse.
  destruct (urlsplit url) as [[[[[s n] u] q] f]|e'] eqn:E; cbn [result_bind].
  - destruct (existsb (String.eqb s) uses_params && contains ";" u);
      [destruct (_splitparams u)|]; discriminate.
  - intros [= <-]. now apply urlsplit_raises in E.
Qed.

(** What [get_video_id] can raise. *)
Lemma get_video_id_raises (url : string) (e : exn) :
  get_video_id url = Raise e -> e = KeyError "v" \/ is_ValueError e.
Proof.
  intros H. destruct (urlparse url) as [q|e'] eqn:Hq.
  - rewrite (Extractor.get_video_id_parsed url q Hq) in H.
    destruct (Spec.watch_without_v q); [|discriminate H].
    left. now injection H as <-.
  - unfold get_video_id in H. rewrite Hq in H. cbn in H.
    injection H as <-. right. now apply (urlparse_raises url).
Qed.

End Url.

(** X1: for either web scheme and every identifier without a tab, a line
    break, [#], [?] or [;], the short link made of the identifier parses back
    to exactly that identifier, slashes included. *)
Theorem short_link_round_trip (sch id : string) :
  sch = "http" \/ sch = "https" ->
  free_of path_delimiters id = true ->
  get_video_id (sch ++ "://youtu.be/" ++ id) = Return (Some id).
Proof.
  intros Hsch H.
  destruct (Url.urlparse_web sch "youtu.be" id "" Hsch eq_refl H eq_refl)
    as [_ Hparse].
  unfold get_video_id.
  change (sch ++ "://youtu.be/" ++ id)
    with (sch ++ "://" ++ "youtu.be" ++ "/" ++ id).
  now rewrite Hparse.
Qed.

Lemma short_link_round_trip_witness :
  free_of path_delimiters "dQw4w9WgXcQ/extra" = true
  /\ get_video_id "https://youtu.be/dQw4w9WgXcQ/extra"
     = Return (Some "dQw4w9WgXcQ/extra").
Proof.
  split; [reflexivity|].
  exact (short_link_round_trip "https" "dQw4w9WgXcQ/extra"
           (or_intror eq_refl) eq_refl).
Defined.

(** X2: for either web scheme and either host of the video site, the
    watch-page URL whose only query field is [v] with a non-empty value
    without a tab, a line break, [#], [&], [%] or [+] parses back to exactly
    that value. *)
Theorem watch_round_trip (sch host id : string) :
  sch = "http" \/ sch = "https" ->
  host = "www.youtube.com" \/ host = "youtube.com" ->
  id <> "" -> free_of value_delimiters id = true ->
  get_video_id (sch ++ "://" ++ host ++ "/watch?v=" ++ id)
  = Return (Some id).
Proof.
  intros Hsch Hhost Hne H.
  assert (Hq : free_of query_delimiters ("v=" ++ id) = true).
  { change (free_of query_delimiters ("v=" ++ id))
      with (free_of query_delimiters id).
    revert H. apply Url.free_of_weaken. Url.included. }
  assert (Hh : free_of host_delimiters host = true)
    by (destruct Hhost as [-> | ->]; reflexivity).
  destruct (Url.urlparse_web sch host "watch" ("v=" ++ id) Hsch Hh eq_refl Hq)
    as [Hparse _].
  unfold get_video_id.
  change (sch ++ "://" ++ host ++ "/watch?v=" ++ id)
    with (sch ++ "://" ++ host ++ "/" ++ "watch" ++ "?" ++ "v=" ++ id).
  rewrite Hparse. cbn [result_bind urllib.path urllib.query].
  replace (Py.equal (urllib.hostname _) "youtu.be") with false
    by (destruct Hhost as [-> | ->]; reflexivity).
  replace (Py.member (urllib.hostname _) ["www.youtube.com"; "youtube.com"])
    with true by (destruct Hhost as [-> | ->]; reflexivity).
  change ("/" ++ "watch" == "/watch") with true. cbv iota.
  now rewrite (Url.parse_qs_v id Hne H).
Qed.

Lemma watch_round_trip_witness :
  free_of value_delimiters "abc=123?x" = true
  /\ get_video_id "http://youtube.com/watch?v=abc=123?x"
     = Return (Some "abc=123?x").
Proof.
  split; [reflexivity|].
  refine (watch_round_trip "http" "youtube.com" "abc=123?x"
            (or_introl eq_refl) (or_intror eq_refl) _ eq_refl).
  discriminate.
Defined.

(** X3: for either web scheme and either host of the video site, the embed
    URL and the video-route URL made of an identifier without a slash, a tab,
    a line break, [#], [?] or [;] parse back to exactly that identifier; the
    empty identifier gives the empty string. *)
Theorem route_round_trip (sch host route id : string) :
  sch = "http" \/ sch = "https" ->
  host = "www.youtube.com" \/ host = "youtube.com" ->
  route = "embed" \/ route = "v" ->
  free_of (String "/" path_delimiters) id = true ->
  get_video_id (sch ++ "://" ++ host ++ "/" ++ route ++ "/" ++ id)
  = Return (Some id).
Proof.
  intros Hsch Hhost Hroute H.
  assert (Hslash := Url.free_of_contains _ _ "/" H eq_refl).
  assert (Hid : free_of path_delimiters id = true)
    by (revert H; apply Url.free_of_weaken; Url.included).
  assert (Hp : free_of path_delimiters (route ++ "/" ++ id) = true)
    by (destruct Hroute as [-> | ->]; exact Hid).
  assert (Hh : free_of host_delimiters host = true)
    by (destruct Hhost as [-> | ->]; reflexivity).
  destruct (Url.urlparse_web sch host (route ++ "/" ++ id) ""
              Hsch Hh Hp eq_refl) as [_ Hparse].
  unfold get_video_id. rewrite Hparse.
  cbn [result_bind urllib.path urllib.query].
  replace (Py.equal (urllib.hostname _) "youtu.be") with false
    by (destruct Hhost as [-> | ->]; reflexivity).
  replace (Py.member (urllib.hostname _) ["www.youtube.com"; "youtube.com"])
    with true by (destruct Hhost as [-> | ->]; reflexivity).
  cbv iota.
  destruct Hroute as [-> | ->].
  - change ("/" ++ "embed" ++ "/" ++ id == "/watch") with false.
    change (Py.take 7 ("/" ++ "embed" ++ "/" ++ id) == "/embed/") with true.
    cbv iota.
    change (Py.split "/" ("/" ++ "embed" ++ "/" ++ id))
      with ("" :: "embed" :: Py.split "/" id).
    now rewrite (Retriever.split_no_separator "/" id Hslash).
  - change ("/" ++ "v" ++ "/" ++ id == "/watch") with false.
    change (Py.take 7 ("/" ++ "v" ++ "/" ++ id) == "/embed/") with false.
    change (Py.take 3 ("/" ++ "v" ++ "/" ++ id) == "/v/") with true.
    cbv iota.
    change (Py.split "/" ("/" ++ "v" ++ "/" ++ id))
      with ("" :: "v" :: Py.split "/" id).
    now rewrite (Retriever.split_no_separator "/" id Hslash).
Qed.

Lemma route_round_trip_witness :
  free_of (String "/" path_delimiters) "abc123" = true
  /\ get_video_id "https://www.youtube.com/v/abc123" = Return (Some "abc123").
Proof.
  split; [reflexivity|].
  exact (route_round_trip "https" "www.youtube.com" "v" "abc123"
           (or_intror eq_refl) (or_introl eq_refl) (or_intror eq_refl)
           eq_refl).
Defined.

(** X4: [get_video_id] raises nothing but [KeyError] for the key [v] and the
    [ValueError] of the URL parser; in particular never [IndexError], and
    always an [Exception]. *)
Theorem get_video_id_raises_only (url : string) (e : exn) :
  get_video_id url = Raise e ->
  (e = KeyError "v" \/ is_ValueError e) /\ is_Exception e = true.
Proof.
  intros H. assert (Hcases := Url.get_video_id_raises url e H).
  split; [exact Hcases|].
  destruct Hcases as [-> | [msg ->]]; reflexivity.
Qed.

Lemma get_video_id_raises_only_witness :
  get_video_id "https://youtube.com/watch?list=PL1" = Raise (KeyError "v")
  /\ is_Exception (KeyError "v") = true.
Proof.
  split; [reflexivity|].
  exact (proj2 (get_video_id_raises_only
                  "https://youtube.com/watch?list=PL1" (KeyError "v")
                  eq_refl)).
Defined.

(** ** More on the transcript retriever *)

Module RetrieverMore.

Import Py PyFacts.

Lemma notices_app (tr tr' : list event) :
  notices (tr ++ tr') = (notices tr ++ notices tr')%list.
Proof. apply filter_app. Qed.

(** Normal form of the notices of a trace built by appending events. *)
Ltac notices_norm :=
  rewrite ?notices_app; cbn [notices filter is_notice app fst snd];
  rewrite ?app_nil_r.

Lemma truthy_Some (v : option string) :
  truthy v = true -> v = Some (the v) /\ the v <> "".
Proof. destruct v as [[|c s]|]; cbn; try discriminate; now split. Qed.

Section WithServices.

Variable svc : Services.

(** The retriever when the listing raises. *)
Lemma extract_listing_raises (url id : string) (e : exn) tr :
  get_video_id url = Return (Some id) -> id <> "" ->
  list_transcripts svc id = Raise e ->
  extract_transcript_details svc url tr
  = if is_Exception e
    then (Return None,
          (tr ++ [ListTranscripts id; StError (failure_notice e)])%list)
    else (Raise e, (tr ++ [ListTranscripts id])%list).
Proof.
  intros Hid Hne Hl.
  unfold extract_transcript_details, try_except, bind, lift, emit, ret.
  rewrite Hid. destruct id as [|c id]; [contradiction|].
  cbn [truthy negb the fst snd]. rewrite Hl.
  destruct e; cbn [is_Exception failure_notice];
    rewrite <- ?app_assoc; reflexivity.
Qed.

(** The outcomes of the retriever and the notices it adds. *)
Lemma extract_outcomes (url : string) tr :
  match extract_transcript_details svc url tr with
  | (Return (Some _), tr') => notices tr' = notices tr
  | (Return None, tr') =>
      exists body,
        notices tr' = (notices tr ++ [StError body])%list
        \/ notices tr' = (notices tr ++ [StWarning body])%list
  | (Raise e, tr') => is_Exception e = false /\ notices tr' = notices tr
  end.
Proof.
  unfold extract_transcript_details, try_except, bind, lift, emit, ret.
  destruct (get_video_id url) as [v|e] eqn:Hv.
  - destruct (truthy v); cbn [negb].
    + destruct (list_transcripts svc (the v)) as [tl|e].
      * cbn [TranscriptList_truthy negb fst snd].
        destruct (get_transcript svc (the v) (Some ["en"])) as [segs|e1].
        { now notices_norm. }
        destruct (get_transcript svc (the v) None) as [segs|e2].
        { now notices_norm. }
        destruct e2; cbn [is_Exception];
          first [ eexists; left; notices_norm; reflexivity
                | split; [reflexivity|]; now notices_norm ].
      * destruct e; cbn [is_Exception];
          first [ eexists; left; notices_norm; reflexivity
                | split; [reflexivity|]; now notices_norm ].
    + eexists. left. notices_norm. reflexivity.
  - destruct (Url.get_video_id_raises url e Hv) as [-> | [msg ->]];
      eexists; left; notices_norm; reflexivity.
Qed.

(** A text the retriever returns is the joined text of the segments the
    service returned to the last fetch. *)
Lemma extract_text_fetched (url t : string) tr tr' :
  extract_transcript_details svc url tr = (Return (Some t), tr') ->
  exists id languages segments before,
    get_video_id url = Return (Some id) /\ id <> ""
    /\ tr' = (before ++ [GetTranscript id languages])%list
    /\ get_transcript svc id languages = Return segments
    /\ t = join " " (map text segments).
Proof.
  unfold extract_transcript_details, try_except, bind, lift, emit, ret.
  destruct (get_video_id url) as [v|e] eqn:Hv.
  - destruct (truthy v) eqn:Ht; cbn [negb]; [|discriminate].
    destruct (truthy_Some v Ht) as [Hsome Hne].
    destruct (list_transcripts svc (the v)) as [tl|e].
    + cbn [TranscriptList_truthy negb fst snd].
      destruct (get_transcript svc (the v) (Some ["en"])) as [segs|e1] eqn:E1.
      { intros [= <- <-]. exists (the v), (Some ["en"]), segs.
        eexists. rewrite Hsome at 1. repeat split; trivial. }
      destruct (get_transcript svc (the v) None) as [segs|e2] eqn:E2.
      { intros [= <- <-]. exists (the v), None, segs.
        eexists. rewrite Hsome at 1. repeat split; trivial. }
      destruct e2; cbn [is_Exception]; discriminate.
    + destruct e; cbn [is_Exception]; discriminate.
  - destruct (Url.get_video_id_raises url e Hv) as [-> | [msg ->]];
      discriminate.
Qed.

End WithServices.

End RetrieverMore.

(** X5: whenever [get_video_id] raises, the retriever reports the exception
    text as a general error, returns no transcript and sends no request; a
    watch-page URL without [v] is reported as [Error: 'v'], not as an invalid
    URL. *)
Theorem retriever_reports_extractor_exception
    (svc : Services) (url : string) (e : exn) (tr : list event) :
  get_video_id url = Raise e ->
  extract_transcript_details svc url tr
  = (Return None, (tr ++ [StError ("⚠️ Error: " ++ str e)])%list).
Proof.
  intros H.
  unfold extract_transcript_details, try_except, bind, lift, emit, ret.
  rewrite H.
  destruct (Url.get_video_id_raises url e H) as [-> | [msg ->]]; reflexivity.
Qed.

Lemma retriever_reports_extractor_exception_witness :
  get_video_id "https://www.youtube.com/watch" = Raise (KeyError "v")
  /\ extract_transcript_details Stubs.english
       "https://www.youtube.com/watch" []
     = (Return None, [StError "⚠️ Error: 'v'"]).
Proof.
  split; [reflexivity|].
  exact (retriever_reports_extractor_exception
           Stubs.english "https://www.youtube.com/watch" (KeyError "v") []
           eq_refl).
Defined.

(** X6: the retriever never raises an [Exception], and it reports every
    failure exactly once: when it returns a text it adds no notice, when it
    returns no text it adds exactly one error or warning, and what it lets
    through is no [Exception] and comes without a notice. *)
Theorem retriever_reports_every_failure
    (svc : Services) (url : string) (tr : list event) :
  match extract_transcript_details svc url tr with
  | (Return (Some _), tr') => notices tr' = notices tr
  | (Return None, tr') =>
      exists body,
        notices tr' = (notices tr ++ [StError body])%list
        \/ notices tr' = (notices tr ++ [StWarning body])%list
  | (Raise e, tr') => is_Exception e = false /\ notices tr' = notices tr
  end.
Proof. apply RetrieverMore.extract_outcomes. Qed.

(** X7: when the fetch restricted to English returns segments, the retriever
    makes no second fetch: its requests are the listing and that one fetch,
    and it returns the joined text without a notice. *)
Theorem english_transcript_is_fetched_once
    (svc : Services) (url id : string) (tl : TranscriptList)
    (segments : list Segment) (tr : list event) :
  get_video_id url = Return (Some id) -> id <> "" ->
  list_transcripts svc id = Return tl ->
  get_transcript svc id (Some ["en"]) = Return segments ->
  extract_transcript_details svc url tr
  = (Return (Some (Py.join " " (map text segments))),
     (tr ++ [ListTranscripts id; GetTranscript id (Some ["en"])])%list).
Proof.
  intros Hid Hne Hl He.
  now rewrite (Retriever.extract_accepted svc url id tl tr Hid Hne Hl), He.
Qed.

Lemma english_transcript_is_fetched_once_witness :
  get_transcript Stubs.english "abc" (Some ["en"]) = Return Stubs.hello_world
  /\ extract_transcript_details Stubs.english "https://youtu.be/abc" []
     = (Return (Some "Hello world"),
        [ListTranscripts "abc"; GetTranscript "abc" (Some ["en"])]).
Proof.
  split; [reflexivity|].
  refine (english_transcript_is_fetched_once
            Stubs.english "https://youtu.be/abc" "abc" ["en"]
            Stubs.hello_world [] eq_refl _ eq_refl eq_refl); discriminate.
Defined.

(** X8: when the listing of the transcripts raises an [Exception], the
    retriever fetches nothing and returns no transcript, with the notice of
    the matching clause: transcripts disabled, no transcript found, or the
    exception text. *)
Theorem listing_failure_is_classified
    (svc : Services) (url id : string) (e : exn) (tr : list event) :
  get_video_id url = Return (Some id) -> id <> "" ->
  list_transcripts svc id = Raise e -> is_Exception e = true ->
  extract_transcript_details svc url tr
  = (Return None,
     (tr ++ [ListTranscripts id; StError (failure_notice e)])%list).
Proof.
  intros Hid Hne Hl He.
  now rewrite (RetrieverMore.extract_listing_raises svc url id e tr Hid Hne Hl),
    He.
Qed.

Lemma listing_failure_is_classified_witness :
  list_transcripts Scenarios.disabled "abc"
  = Raise (TranscriptsDisabled "Subtitles are disabled for this video")
  /\ extract_transcript_details Scenarios.disabled "https://youtu.be/abc" []
     = (Return None,
        [ListTranscripts "abc";
         StError "❌ Transcripts are disabled for this video"]).
Proof.
  split; [reflexivity|].
  refine (listing_failure_is_classified
            Scenarios.disabled "https://youtu.be/abc" "abc"
            (TranscriptsDisabled "Subtitles are disabled for this video") []
            eq_refl _ eq_refl eq_refl); discriminate.
Defined.

(** X9: when both fetches raise, the notice is the one for the exception of
    the fallback fetch; the exception of the English fetch is dropped,
    whatever it was. *)
Theorem fallback_failure_is_reported
    (svc : Services) (url id : string) (tl : TranscriptList)
    (e1 e2 : exn) (tr : list event) :
  get_video_id url = Return (Some id) -> id <> "" ->
  list_transcripts svc id = Return tl ->
  get_transcript svc id (Some ["en"]) = Raise e1 ->
  get_transcript svc id None = Raise e2 -> is_Exception e2 = true ->
  extract_transcript_details svc url tr
  = (Return None,
     (tr ++ [ListTranscripts id; GetTranscript id (Some ["en"]);
             GetTranscript id None; StError (failure_notice e2)])%list).
Proof.
  intros Hid Hne Hl H1 H2 He.
  rewrite (Retriever.extract_accepted svc url id tl tr Hid Hne Hl), H1, H2.
  cbv zeta.
  destruct e2; cbn [is_Exception failure_notice] in *;
    try discriminate He; rewrite <- ?app_assoc; reflexivity.
Qed.

Lemma fallback_failure_is_reported_witness :
  get_transcript Scenarios.unreachable "abc" None
  = Raise (Exception_ "Connection reset by peer")
  /\ extract_transcript_details Scenarios.unreachable "https://youtu.be/abc" []
     = (Return None,
        [ListTranscripts "abc"; GetTranscript "abc" (Some ["en"]);
         GetTranscript "abc" None;
         StError "⚠️ Error: Connection reset by peer"]).
Proof.
  split; [reflexivity|].
  refine (fallback_failure_is_reported
            Scenarios.unreachable "https://youtu.be/abc" "abc" ["en"]
            (NoTranscriptFound "No transcripts were found")
            (Exception_ "Connection reset by peer") []
            eq_refl _ eq_refl eq_refl eq_refl eq_refl); discriminate.
Defined.

(** X10: every text the retriever returns is the joined text of the segments
    that the transcript service returned to the retriever's last request, a
    fetch for the non-empty identifier extracted from the URL. *)
Theorem retrieved_text_was_fetched
    (svc : Services) (url t : string) (tr tr' : list event) :
  extract_transcript_details svc url tr = (Return (Some t), tr') ->
  exists id languages segments before,
    get_video_id url = Return (Some id) /\ id <> ""
    /\ tr' = (before ++ [GetTranscript id languages])%list
    /\ get_transcript svc id languages = Return segments
    /\ t = Py.join " " (map text segments).
Proof. apply RetrieverMore.extract_text_fetched. Qed.

Lemma retrieved_text_was_fetched_witness :
  exists id languages segments before,
    get_video_id "https://youtu.be/abc" = Return (Some id) /\ id <> ""
    /\ [ListTranscripts "abc"; GetTranscript "abc" (Some ["en"]);
        GetTranscript "abc" None]
       = (before ++ [GetTranscript id languages])%list
    /\ get_transcript Stubs.no_english id languages = Return segments
    /\ "Hello world" = Py.join " " (map text segments).
Proof.
  exact (retrieved_text_was_fetched
           Stubs.no_english "https://youtu.be/abc" "Hello world" [] _
           eq_refl).
Defined.

(** ** More on the summary generator *)

Module GeneratorMore.

Import Py PyFacts.

(** The prompt is the template head, the transcript and a line break,
    whatever the transcript holds. *)
Lemma format_prompt_head (transcript_text : string) :
  format PROMPT_TEMPLATE [("transcript", transcript_text)]
  = Return (PROMPT_HEAD ++ transcript_text ++ nl).
Proof. reflexivity. Qed.

Lemma notices_load_models (names : list string) :
  notices (map LoadModel names) = [].
Proof. induction names as [|n names IH]; cbn; [trivial | exact IH]. Qed.

Section WithServices.

Variable svc : Services.

(** The generator once the service has accepted a model name: the outcome
    follows the answer to the one generation request. *)
Lemma generate_accepted (transcript_text : string) (errors : list exn)
    (tried : list string) (name : string) (rest : list string)
    (m : genai.Model) tr :
  model_names_to_try = (tried ++ name :: rest)%list ->
  Forall2 (rejects svc) errors tried ->
  GenerativeModel svc name = Return m ->
  let prompt := PROMPT_HEAD ++ transcript_text ++ nl in
  let tr' := (tr ++ map LoadModel (tried ++ [name])
                 ++ [GenerateContent m prompt safety_settings
                                     generation_config])%list in
  let failed (e : exn) :=
    if is_Exception e
    then (Return None,
          (tr' ++ [StError ("🚨 Generation failed: " ++ str e)])%list)
    else (Raise e, tr') in
  generate_gemini_content svc transcript_text tr
  = match generate_content svc m prompt safety_settings generation_config
    with
    | Return response =>
        match genai.text response with
        | Return summary => (Return (Some summary), tr')
        | Raise e => failed e
        end
    | Raise e => failed e
    end.
Proof.
  intros Hnames Hrej Hm. cbv zeta.
  unfold generate_gemini_content, try_except, bind. rewrite Hnames.
  rewrite (Generator.load_model_accepted svc errors tried name rest m
             Hrej Hm).
  unfold lift, emit, ret. rewrite format_prompt_head.
  rewrite <- !app_assoc.
  destruct (generate_content svc m _ safety_settings generation_config)
    as [response|e]; [destruct (genai.text response) as [summary|e]|];
    try reflexivity; destruct (is_Exception e); reflexivity.
Qed.

(** The outcomes of the generator and the notices it adds. *)
Lemma generate_outcomes (transcript_text : string) tr :
  match generate_gemini_content svc transcript_text tr with
  | (Return (Some summary), tr') =>
      notices tr' = notices tr
      /\ exists m response before,
           tr' = (before
                  ++ [GenerateContent m (PROMPT_HEAD ++ transcript_text ++ nl)
                        safety_settings generation_config])%list
           /\ generate_content svc m (PROMPT_HEAD ++ transcript_text ++ nl)
                safety_settings generation_config = Return response
           /\ genai.text response = Return summary
  | (Return None, tr') =>
      exists body,
        notices tr'
        = (notices tr ++ [StError ("🚨 Generation failed: " ++ body)])%list
  | (Raise e, tr') => is_Exception e = false /\ notices tr' = notices tr
  end.
Proof.
  unfold generate_gemini_content, try_except, bind.
  destruct (Generator.load_model_requests svc model_names_to_try None None tr)
    as [k Hk].
  destruct (load_model svc model_names_to_try None None tr)
    as [[[model last_error]|e] tr1]; cbn [snd] in Hk; subst tr1.
  - destruct model as [m|].
    + unfold lift, emit, ret. rewrite format_prompt_head.
      destruct (generate_content svc m _ _ _) as [response|e] eqn:Hg;
        [destruct (genai.text response) as [summary|e] eqn:Ht|].
      * split.
        { rewrite !RetrieverMore.notices_app, notices_load_models. cbn.
          now rewrite !app_nil_r. }
        exists m, response. eexists. repeat split; trivial.
      * destruct (is_Exception e) eqn:He.
        { eexists. rewrite !RetrieverMore.notices_app, notices_load_models.
          cbn. now rewrite !app_nil_r. }
        split; [exact He|].
        rewrite !RetrieverMore.notices_app, notices_load_models. cbn.
        now rewrite !app_nil_r.
      * destruct (is_Exception e) eqn:He.
        { eexists. rewrite !RetrieverMore.notices_app, notices_load_models.
          cbn. now rewrite !app_nil_r. }
        split; [exact He|].
        rewrite !RetrieverMore.notices_app, notices_load_models. cbn.
        now rewrite !app_nil_r.
    + unfold raise, emit, ret. cbn [is_Exception].
      eexists. rewrite !RetrieverMore.notices_app, notices_load_models.
      cbn. now rewrite !app_nil_r.
  - destruct (is_Exception e) eqn:He.
    + unfold emit, ret. eexists.
      rewrite !RetrieverMore.notices_app, notices_load_models.
      cbn. now rewrite !app_nil_r.
    + split; [exact He|].
      rewrite !RetrieverMore.notices_app, notices_load_models.
      now rewrite app_nil_r.
Qed.

(** Every generation request of the generator carries the template with the
    transcript in its slot. *)
Lemma generate_prompt_preserves (P : event -> Prop)
    (transcript_text : string) :
  (forall n, P (LoadModel n)) ->
  (forall m,
     P (GenerateContent m (PROMPT_HEAD ++ transcript_text ++ nl)
                        safety_settings generation_config)) ->
  (forall body, P (StError body)) ->
  preserves P (generate_gemini_content svc transcript_text).
Proof.
  intros Hl Hg He. unfold generate_gemini_content.
  rewrite format_prompt_head.
  preserves_step.
  all: try solve [repeat preserves_step; auto].
  preserves_step; [now apply Generator.load_model_preserves|].
  destruct a as [[m|] last_error]; [|preserves_step].
  intros tr H. unfold bind at 1, lift at 1.
  revert tr H. change (preserves P
    (emit (GenerateContent m (PROMPT_HEAD ++ transcript_text ++ nl)
             safety_settings generation_config) ;;
     response <- lift (generate_content svc m
                         (PROMPT_HEAD ++ transcript_text ++ nl)
                         safety_settings generation_config) ;;
     text <- lift (genai.text response) ;; ret (Some text))).
  repeat preserves_step; auto.
Qed.

End WithServices.

End GeneratorMore.

(** X11: the generator never raises an [Exception], and it reports every
    failure exactly once: when it returns no summary it adds exactly one
    generation-failed notice; when it returns a summary it adds no notice and
    the summary is the text of the response to its last action, a generation
    request whose prompt is the template with the whole transcript; what it
    lets through is no [Exception] and comes without a notice. *)
Theorem generator_reports_every_failure
    (svc : Services) (transcript_text : string) (tr : list event) :
  match generate_gemini_content svc transcript_text tr with
  | (Return (Some summary), tr') =>
      notices tr' = notices tr
      /\ exists m response before,
           tr' = (before
                  ++ [GenerateContent m (PROMPT_HEAD ++ transcript_text ++ nl)
                        safety_settings generation_config])%list
           /\ generate_content svc m (PROMPT_HEAD ++ transcript_text ++ nl)
                safety_settings generation_config = Return response
           /\ genai.text response = Return summary
  | (Return None, tr') =>
      exists body,
        notices tr'
        = (notices tr ++ [StError ("🚨 Generation failed: " ++ body)])%list
  | (Raise e, tr') => is_Exception e = false /\ notices tr' = notices tr
  end.
Proof. apply GeneratorMore.generate_outcomes. Qed.

(** X12: the prompt is the template with the transcript in place of its
    slot, for every transcript: nothing is cut off, and braces or other
    format syntax inside the transcript are not interpreted, so rendering the
    prompt never raises. *)
Theorem prompt_holds_whole_transcript (transcript_text : string) :
  PROMPT_TEMPLATE = PROMPT_HEAD ++ "{transcript}" ++ nl
  /\ format PROMPT_TEMPLATE [("transcript", transcript_text)]
     = Return (PROMPT_HEAD ++ transcript_text ++ nl)
  /\ String.length (PROMPT_HEAD ++ transcript_text ++ nl)
     = String.length PROMPT_HEAD + String.length transcript_text + 1.
Proof.
  split; [reflexivity|]. split; [apply GeneratorMore.format_prompt_head|].
  rewrite !Url.length_append. change (String.length nl) with 1. lia.
Qed.

(** X13: once the service has accepted a model name, the generator sends
    one generation request to that model and returns the text of the
    response unchanged, without a notice. *)
Theorem generated_text_is_returned_verbatim
    (svc : Services) (transcript_text summary : string) (errors : list exn)
    (tried : list string) (name : string) (rest : list string)
    (m : genai.Model) (response : genai.Response) (tr : list event) :
  model_names_to_try = (tried ++ name :: rest)%list ->
  Forall2 (rejects svc) errors tried ->
  GenerativeModel svc name = Return m ->
  generate_content svc m (PROMPT_HEAD ++ transcript_text ++ nl)
                   safety_settings generation_config = Return response ->
  genai.text response = Return summary ->
  generate_gemini_content svc transcript_text tr
  = (Return (Some summary),
     (tr ++ map LoadModel (tried ++ [name])
         ++ [GenerateContent m (PROMPT_HEAD ++ transcript_text ++ nl)
               safety_settings generation_config])%list).
Proof.
  intros Hnames Hrej Hm Hg Ht.
  rewrite (GeneratorMore.generate_accepted svc transcript_text errors tried
             name rest m tr Hnames Hrej Hm).
  now rewrite Hg, Ht.
Qed.

Lemma generated_text_is_returned_verbatim_witness :
  generate_gemini_content Stubs.repeat_transcript "Hello world" []
  = (Return (Some "Hello world"),
     [LoadModel "gemini-1.5-pro-latest"; LoadModel "gemini-pro";
      GenerateContent {| genai.model_name := "gemini-pro" |}
        (PROMPT_HEAD ++ "Hello world" ++ nl)
        safety_settings generation_config]).
Proof.
  refine (generated_text_is_returned_verbatim
            Stubs.repeat_transcript "Hello world" "Hello world"
            [Exception_ "404 models/gemini-1.5-pro-latest is not found"]
            ["gemini-1.5-pro-latest"] "gemini-pro" ["models/gemini-pro"]
            {| genai.model_name := "gemini-pro" |}
            {| genai.text := Return "Hello world" |} []
            eq_refl _ eq_refl eq_refl eq_refl).
  constructor; [split; reflexivity | constructor].
Defined.

(** X14: once the service has accepted a model name, an [Exception] raised
    by the generation request, or by reading the text of its response, ends
    the generator with no summary and one notice that carries the exception
    text; the request is not repeated and no other model is tried. *)
Theorem generation_failure_is_reported
    (svc : Services) (transcript_text : string) (errors : list exn)
    (tried : list string) (name : string) (rest : list string)
    (m : genai.Model) (e : exn) (tr : list event) :
  model_names_to_try = (tried ++ name :: rest)%list ->
  Forall2 (rejects svc) errors tried ->
  GenerativeModel svc name = Return m ->
  generate_content svc m (PROMPT_HEAD ++ transcript_text ++ nl)
                   safety_settings generation_config = Raise e
  \/ (exists response,
        generate_content svc m (PROMPT_HEAD ++ transcript_text ++ nl)
                         safety_settings generation_config = Return response
        /\ genai.text response = Raise e) ->
  is_Exception e = true ->
  generate_gemini_content svc transcript_text tr
  = (Return None,
     (tr ++ map LoadModel (tried ++ [name])
         ++ [GenerateContent m (PROMPT_HEAD ++ transcript_text ++ nl)
               safety_settings generation_config;
             StError ("🚨 Generation failed: " ++ str e)])%list).
Proof.
  intros Hnames Hrej Hm Hfail He.
  rewrite (GeneratorMore.generate_accepted svc transcript_text errors tried
             name rest m tr Hnames Hrej Hm).
  destruct Hfail as [-> | (response & -> & ->)];
    rewrite He, <- !app_assoc; reflexivity.
Qed.

Lemma generation_failure_is_reported_witness :
  generate_gemini_content Scenarios.refused "Hello world" []
  = (Return None,
     [LoadModel "gemini-1.5-pro-latest"; LoadModel "gemini-pro";
      GenerateContent {| genai.model_name := "gemini-pro" |}
        (PROMPT_HEAD ++ "Hello world" ++ nl)
        safety_settings generation_config;
      StError "🚨 Generation failed: 429 quota exceeded"]).
Proof.
  refine (generation_failure_is_reported
            Scenarios.refused "Hello world"
            [Exception_ "404 models/gemini-1.5-pro-latest is not found"]
            ["gemini-1.5-pro-latest"] "gemini-pro" ["models/gemini-pro"]
            {| genai.model_name := "gemini-pro" |}
            (Exception_ "429 quota exceeded") []
            eq_refl _ eq_refl (or_introl eq_refl) eq_refl).
  constructor; [split; reflexivity | constructor].
Defined.

(** ** More on the interaction shell *)

Module ShellMore.

Import Py PyFacts.

Lemma no_generation_prompt (t : string) (tr : list event) :
  Forall no_generation_request tr -> Forall (prompt_of t) tr.
Proof.
  apply Forall_impl. intros ev. now destruct ev.
Qed.

Lemma page_head_before_foot :
  Forall before_foot
         (page_head ++ [StSpinner "🔍 Extracting transcript..."]).
Proof. repeat constructor; discriminate. Qed.

Section WithServices.

Variable svc : Services.

Lemma extract_before_foot (url : string) :
  preserves before_foot (extract_transcript_details svc url).
Proof. apply Retriever.extract_preserves; intros; discriminate. Qed.

Lemma generate_before_foot (transcript_text : string) :
  preserves before_foot (generate_gemini_content svc transcript_text).
Proof. apply Generator.generate_preserves; intros; discriminate. Qed.

Lemma extract_no_generation (url : string) :
  preserves no_generation_request (extract_transcript_details svc url).
Proof. apply Retriever.extract_preserves; cbn; trivial. Qed.

(** The requests of a run: those of the retriever, then the model names,
    then at most one generation request. *)
Lemma run_requests_shape (w : Widgets) :
  exists id k k' tail,
    requests (run svc w)
    = (firstn k (retriever_requests id)
       ++ map LoadModel (firstn k' model_names_to_try) ++ tail)%list
    /\ (tail = []
        \/ exists m prompt,
             tail = [GenerateContent m prompt safety_settings
                                     generation_config]).
Proof.
  unfold run. destruct (generate_summary w) eqn:Hb.
  2: { rewrite Shell.script_idle by assumption.
       exists "", 0, 0, []. split; [reflexivity | now left]. }
  destruct (String.eqb_spec (youtube_link w) "") as [Hl|Hl].
  { rewrite Shell.script_without_link by assumption.
    exists "", 0, 0, []. split; [reflexivity | now left]. }
  rewrite (Shell.script_clicked svc w Hb Hl).
  destruct (Retriever.extract_requests svc (youtube_link w)
              (page_head ++ [StSpinner "🔍 Extracting transcript..."]))
    as (id & k & Hk).
  change (requests (page_head ++ _)) with (@nil event) in Hk.
  cbn [app] in Hk. exists id, k.
  destruct (extract_transcript_details svc (youtube_link w) _)
    as [[transcript|e] tr1]; cbn [snd] in Hk |- *.
  2: { exists 0, []. rewrite Hk. cbn [firstn map app].
       rewrite app_nil_r. split; [reflexivity | now left]. }
  destruct (truthy transcript); cbn [negb snd].
  2: { exists 0, []. rewrite Hk. cbn [firstn map app].
       rewrite app_nil_r. split; [reflexivity | now left]. }
  destruct (Generator.generate_requests svc (the transcript)
              (tr1 ++ [StSpinner "🧠 Generating summary (this may take a minute)..."]))
    as (k' & tail & Hk' & Htail).
  rewrite Shell.requests_app, Hk in Hk'.
  cbn [requests filter is_request] in Hk'. rewrite app_nil_r in Hk'.
  exists k', tail. split; [|exact Htail].
  destruct (generate_gemini_content svc (the transcript) _)
    as [[summary|e] tr2]; cbn [snd] in Hk' |- *; [|exact Hk'].
  destruct (truthy summary); cbn [snd];
    rewrite Shell.requests_app, Hk'; cbn;
    now rewrite app_nil_r.
Qed.

(** The outcomes of a script run. *)
Lemma script_outcomes (w : Widgets) :
  match script svc w [] with
  | (Return _, tr) => exists body, tr = (body ++ page_foot)%list
  | (Raise e, tr) => is_Exception e = false /\ Forall before_foot tr
  end.
Proof.
  destruct (generate_summary w) eqn:Hb.
  2: { rewrite Shell.script_idle by assumption. now exists page_head. }
  destruct (String.eqb_spec (youtube_link w) "") as [Hl|Hl].
  { rewrite Shell.script_without_link by assumption.
    split; [reflexivity|]. repeat constructor; discriminate. }
  rewrite (Shell.script_clicked svc w Hb Hl).
  assert (Ho := RetrieverMore.extract_outcomes svc (youtube_link w)
                  (page_head ++ [StSpinner "🔍 Extracting transcript..."])).
  destruct (extract_transcript_details svc (youtube_link w) _)
    as [[transcript|e] tr1] eqn:E1.
  all: assert (H1 : Forall before_foot tr1)
    by (eapply MFacts.preserves_run;
        [apply extract_before_foot | apply page_head_before_foot
        | exact E1]).
  2: { split; [apply Ho | exact H1]. }
  destruct (truthy transcript); cbn [negb].
  2: { split; [reflexivity | exact H1]. }
  assert (Hg := GeneratorMore.generate_outcomes svc (the transcript)
                  (tr1 ++ [StSpinner "🧠 Generating summary (this may take a minute)..."])).
  destruct (generate_gemini_content svc (the transcript) _)
    as [[summary|e] tr2] eqn:E2.
  2: { split; [apply Hg|].
       eapply MFacts.preserves_run;
         [apply generate_before_foot | | exact E2].
       apply Forall_app. split; [exact H1|].
       repeat constructor; discriminate. }
  destruct (truthy summary).
  - eexists. rewrite !app_assoc. reflexivity.
  - eexists. rewrite !app_assoc. reflexivity.
Qed.

(** Every generation request of a run carries the template with the joined
    text of a transcript the service returned. *)
Lemma run_prompts (w : Widgets) (m : genai.Model) (prompt : string)
    (safety : Py.dict string) (config : genai.GenerationConfig) :
  In (GenerateContent m prompt safety config) (run svc w) ->
  exists id languages segments,
    get_video_id (youtube_link w) = Return (Some id)
    /\ get_transcript svc id languages = Return segments
    /\ join " " (map text segments) <> ""
    /\ prompt = PROMPT_HEAD ++ join " " (map text segments) ++ nl.
Proof.
  assert (Hnone : forall tr,
            Forall no_generation_request tr ->
            In (GenerateContent m prompt safety config) tr -> False).
  { intros tr H Hin. rewrite Forall_forall in H. exact (H _ Hin). }
  unfold run. destruct (generate_summary w) eqn:Hb.
  2: { rewrite Shell.script_idle by assumption. intros Hin.
       exfalso. revert Hin. apply Hnone. repeat constructor. }
  destruct (String.eqb_spec (youtube_link w) "") as [Hl|Hl].
  { rewrite Shell.script_without_link by assumption. intros Hin.
    exfalso. revert Hin. apply Hnone. repeat constructor. }
  rewrite (Shell.script_clicked svc w Hb Hl).
  destruct (extract_transcript_details svc (youtube_link w) _)
    as [[transcript|e] tr1] eqn:E1.
  all: assert (H1 : Forall no_generation_request tr1)
    by (eapply MFacts.preserves_run;
        [apply extract_no_generation | | exact E1];
        repeat constructor).
  2: { intros Hin. exfalso. revert Hin. now apply Hnone. }
  destruct (truthy transcript) eqn:Ht; cbn [negb].
  2: { intros Hin. exfalso. revert Hin. now apply Hnone. }
  destruct (RetrieverMore.truthy_Some transcript Ht) as [Hsome Hne].
  rewrite Hsome in E1.
  destruct (RetrieverMore.extract_text_fetched svc _ _ _ _ E1)
    as (id & languages & segments & before & Hid & _ & _ & Hget & Htext).
  match goal with
  | |- In _ ?trace -> _ =>
      enough (Hkey : In (GenerateContent m prompt safety config) trace ->
                     prompt = PROMPT_HEAD ++ the transcript ++ nl)
  end.
  { intros Hin. exists id, languages, segments.
    rewrite <- Htext. repeat split; trivial. now apply Hkey. }
  assert (Hall : forall r tr2,
            generate_gemini_content svc (the transcript)
              (tr1 ++ [StSpinner "🧠 Generating summary (this may take a minute)..."])%list
            = (r, tr2) ->
            Forall (prompt_of (the transcript)) tr2).
  { intros r tr2 E2.
    eapply MFacts.preserves_run; [| | exact E2].
    - apply (GeneratorMore.generate_prompt_preserves svc
               (prompt_of (the transcript))); cbn; trivial.
    - apply Forall_app. split; [now apply no_generation_prompt|].
      repeat constructor. }
  destruct (generate_gemini_content svc (the transcript) _)
    as [[summary|e] tr2] eqn:E2; specialize (Hall _ _ eq_refl).
  2: { cbn [snd]. intros Hin. rewrite Forall_forall in Hall.
       exact (Hall _ Hin). }
  assert (Hfinal : forall rest,
            Forall no_generation_request rest ->
            In (GenerateContent m prompt safety config) (tr2 ++ rest)%list ->
            prompt = PROMPT_HEAD ++ the transcript ++ nl).
  { intros rest Hrest Hin'. apply in_app_or in Hin' as [Hin'|Hin'].
    - rewrite Forall_forall in Hall. exact (Hall _ Hin').
    - exfalso. revert Hin'. now apply Hnone. }
  destruct (truthy summary); cbn [snd];
    apply Hfinal; repeat constructor.
Qed.

End WithServices.

End ShellMore.

(** X15: the requests of a script run are, in this order, the retriever's
    requests for one identifier (the listing, the English fetch, the
    fallback fetch), then model names in the order of the list, then at most
    one generation request; so a run sends at most seven requests and none
    of them twice. *)
Theorem run_requests_are_ordered (svc : Services) (w : Widgets) :
  (exists id k k' tail,
     requests (run svc w)
     = (firstn k (retriever_requests id)
        ++ map LoadModel (firstn k' model_names_to_try) ++ tail)%list
     /\ (tail = []
         \/ exists m prompt,
              tail = [GenerateContent m prompt safety_settings
                                      generation_config]))
  /\ List.length (requests (run svc w)) <= 7
  /\ NoDup (requests (run svc w)).
Proof.
  destruct (ShellMore.run_requests_shape svc w)
    as (id & k & k' & tail & Hshape & Htail).
  split; [now exists id, k, k', tail|]. split.
  - rewrite Hshape, !length_app, length_map.
    rewrite !length_firstn.
    change (List.length (retriever_requests id)) with 3.
    change (List.length model_names_to_try) with 3.
    assert (H3 : List.length tail <= 1)
      by (destruct Htail as [-> | (m & prompt & ->)]; cbn; lia).
    lia.
  - rewrite Hshape. now apply Shell.requests_shape_NoDup.
Qed.



(** X17: a complete run.  When the link gives an identifier, the English
    transcript has a non-empty text, the service accepts a model name after
    rejecting the earlier ones and the response has a non-empty text, the run
    is exactly: the page head, the retriever's two requests, the model names
    tried, one generation request with the whole transcript in the prompt,
    the summary with its two downloads, and the page foot. *)
Theorem complete_run
    (svc : Services) (w : Widgets) (id : string) (tl : TranscriptList)
    (segments : list Segment) (errors : list exn) (tried : list string)
    (name : string) (rest : list string) (m : genai.Model)
    (response : genai.Response) (summary : string) :
  let transcript := Py.join " " (map text segments) in
  let prompt := PROMPT_HEAD ++ transcript ++ nl in
  generate_summary w = true ->
  get_video_id (youtube_link w) = Return (Some id) -> id <> "" ->
  list_transcripts svc id = Return tl ->
  get_transcript svc id (Some ["en"]) = Return segments ->
  transcript <> "" ->
  model_names_to_try = (tried ++ name :: rest)%list ->
  Forall2 (rejects svc) errors tried ->
  GenerativeModel svc name = Return m ->
  generate_content svc m prompt safety_settings generation_config
  = Return response ->
  genai.text response = Return summary -> summary <> "" ->
  script svc w []
  = (Return tt,
     (page_head
      ++ [StSpinner "🔍 Extracting transcript...";
          ListTranscripts id; GetTranscript id (Some ["en"]);
          StSpinner "🧠 Generating summary (this may take a minute)..."]
      ++ map LoadModel (tried ++ [name])
      ++ [GenerateContent m prompt safety_settings generation_config;
          StSuccess "✅ Summary generated successfully!";
          StMarkdown "---"; StSubheader "Summary"; StWrite summary]
      ++ download_buttons summary ++ page_foot)%list).
Proof.
  intros transcript prompt Hb Hid Hne Hl He Htext Hnames Hrej Hm Hg Ht Hs.
  assert (Hlink : youtube_link w <> "").
  { intros E. rewrite E in Hid. discriminate Hid. }
  rewrite (Shell.script_clicked svc w Hb Hlink).
  rewrite (Retriever.extract_accepted svc _ id tl _ Hid Hne Hl), He.
  fold transcript.
  destruct transcript as [|c t] eqn:Etext; [contradiction|].
  cbn [Py.truthy negb Py.the].
  rewrite (GeneratorMore.generate_accepted svc (String c t) errors tried
             name rest m _ Hnames Hrej Hm).
  cbv zeta. fold prompt. rewrite Hg, Ht.
  destruct summary as [|c' s]; [contradiction|].
  cbn [Py.truthy Py.the].
  f_equal. rewrite <- !app_assoc. reflexivity.
Qed.

Lemma complete_run_witness :
  script Stubs.repeat_transcript Stubs.watch_abc123 []
  = (Return tt,
     (page_head
      ++ [StSpinner "🔍 Extracting transcript...";
          ListTranscripts "abc123"; GetTranscript "abc123" (Some ["en"]);
          StSpinner "🧠 Generating summary (this may take a minute)...";
          LoadModel "gemini-1.5-pro-latest"; LoadModel "gemini-pro";
          GenerateContent {| genai.model_name := "gemini-pro" |}
            (PROMPT_HEAD ++ "Hello world" ++ nl)
            safety_settings generation_config;
          StSuccess "✅ Summary generated successfully!";
          StMarkdown "---"; StSubheader "Summary"; StWrite "Hello world"]
      ++ download_buttons "Hello world" ++ page_foot)%list).
Proof.
  refine (complete_run
            Stubs.repeat_transcript Stubs.watch_abc123 "abc123" ["en"]
            Stubs.hello_world
            [Exception_ "404 models/gemini-1.5-pro-latest is not found"]
            ["gemini-1.5-pro-latest"] "gemini-pro" ["models/gemini-pro"]
            {| genai.model_name := "gemini-pro" |}
            {| genai.text := Return "Hello world" |} "Hello world"
            eq_refl eq_refl _ eq_refl eq_refl _ eq_refl _ eq_refl eq_refl
            eq_refl _); try discriminate.
  constructor; [split; reflexivity | constructor].
Defined.



(** X19: a script run never ends in an [Exception].  Either it completes,
    and then its last events are the page foot; or it is stopped, by the
    script itself or by something that is no [Exception], and then the
    closing caption is not shown. *)
Theorem script_never_crashes (svc : Services) (w : Widgets) :
  match script svc w [] with
  | (Return _, tr) => exists body, tr = (body ++ page_foot)%list
  | (Raise e, tr) => is_Exception e = false /\ ~ In foot_caption tr
  end.
Proof.
  assert (H := ShellMore.script_outcomes svc w).
  destruct (script svc w []) as [[u|e] tr]; [exact H|].
  destruct H as [He Hfoot]. split; [exact He|].
  intros Hin. rewrite Forall_forall in Hfoot. now apply (Hfoot _ Hin).
Qed.

(** X20: every generation request of a script run carries, in the slot of
    the template, the joined text of segments that the transcript service
    returned for the identifier of the link, and that text is not empty. *)
Theorem generation_prompt_holds_fetched_transcript
    (svc : Services) (w : Widgets) (m : genai.Model) (prompt : string)
    (safety : Py.dict string) (config : genai.GenerationConfig) :
  In (GenerateContent m prompt safety config) (run svc w) ->
  exists id languages segments,
    get_video_id (youtube_link w) = Return (Some id)
    /\ get_transcript svc id languages = Return segments
    /\ Py.join " " (map text segments) <> ""
    /\ prompt = PROMPT_HEAD ++ Py.join " " (map text segments) ++ nl.
Proof. apply ShellMore.run_prompts. Qed.

Lemma generation_prompt_holds_fetched_transcript_witness :
  exists id languages segments,
    get_video_id (youtube_link Stubs.watch_abc123) = Return (Some id)
    /\ get_transcript Stubs.english id languages = Return segments
    /\ Py.join " " (map text segments) <> ""
    /\ PROMPT_HEAD ++ "Hello world" ++ nl
       = PROMPT_HEAD ++ Py.join " " (map text segments) ++ nl.
Proof.
  refine (generation_prompt_holds_fetched_transcript
            Stubs.english Stubs.watch_abc123
            {| genai.model_name := "gemini-pro" |}
            (PROMPT_HEAD ++ "Hello world" ++ nl)
            safety_settings generation_config _).
  cbn. do 9 right. left. reflexivity.
Defined.

(** ** The generation request of a run *)

Module Request.

Lemma load_models_filtered (names : list string) :
  filter is_generate_content (map LoadModel names) = [].
Proof. induction names as [|name names IH]; [reflexivity | exact IH]. Qed.

Section WithServices.

Variable svc : Services.

(** A run that retrieves a text and gets a model name accepted sends one
    generation request: the prompt with the text, and the settings of the
    program. *)
Lemma run_generation_request (w : Widgets) (id : string)
    (tl : TranscriptList) (segments : list Segment) (errors : list exn)
    (tried : list string) (name : string) (rest : list string)
    (m : genai.Model) :
  generate_summary w = true ->
  get_video_id (youtube_link w) = Return (Some id) -> id <> "" ->
  list_transcripts svc id = Return tl ->
  get_transcript svc id (Some ["en"]) = Return segments
  \/ ((exists e, get_transcript svc id (Some ["en"]) = Raise e)
      /\ get_transcript svc id None = Return segments) ->
  Py.join " " (map text segments) <> "" ->
  model_names_to_try = (tried ++ name :: rest)%list ->
  Forall2 (rejects svc) errors tried ->
  GenerativeModel svc name = Return m ->
  filter is_generate_content (run svc w)
  = [GenerateContent m (PROMPT_HEAD ++ Py.join " " (map text segments) ++ nl)
       safety_settings generation_config].
Proof.
  intros Hb Hid Hne Hl Hfetch Htext Hnames Hrej Hm.
  assert (Hlink : youtube_link w <> "").
  { intros E. rewrite E in Hid. discriminate Hid. }
  unfold run. rewrite (Shell.script_clicked svc w Hb Hlink).
  rewrite (Retriever.extract_accepted svc _ id tl _ Hid Hne Hl).
  destruct (Py.join " " (map text segments)) as [|c t] eqn:Ht;
    [contradiction|].
  destruct Hfetch as [-> | [[e ->] ->]]; cbv zeta; rewrite Ht;
    cbn [Py.truthy negb Py.the];
    rewrite (GeneratorMore.generate_accepted svc (String c t) errors tried
               name rest m _ Hnames Hrej Hm);
    cbv zeta;
    (destruct (generate_content svc m _ safety_settings generation_config)
       as [response|e2];
     [destruct (genai.text response) as [summary|e2]|];
     [destruct (Py.truthy (Some summary))
     |destruct (is_Exception e2)|destruct (is_Exception e2)];
     cbn [Py.truthy snd];
     rewrite !filter_app, ?load_models_filtered;
     reflexivity).
Qed.

End WithServices.

End Request.

(** C7: every generation request of a script run carries temperature 0.3,
    top-p 0.95, top-k 40, at most 2048 output tokens and the four safety
    categories set to block only high severity; the run is the same for all
    values of the two sliders; and such a request is sent: a run that
    retrieves a transcript text and gets a model name accepted sends exactly
    one generation request, with these values, whatever the sliders say. *)
Theorem generation_configuration_is_fixed (svc : Services) (w : Widgets) :
  Forall fixed_configuration (run svc w)
  /\ (forall max_length' temperature',
        run svc {| max_length := max_length'; temperature := temperature';
                   youtube_link := youtube_link w;
                   generate_summary := generate_summary w |}
        = run svc w)
  /\ (forall (id : string) (tl : TranscriptList) (segments : list Segment)
             (errors : list exn) (tried : list string) (name : string)
             (rest : list string) (m : genai.Model),
        generate_summary w = true ->
        get_video_id (youtube_link w) = Return (Some id) -> id <> "" ->
        list_transcripts svc id = Return tl ->
        get_transcript svc id (Some ["en"]) = Return segments
        \/ ((exists e, get_transcript svc id (Some ["en"]) = Raise e)
            /\ get_transcript svc id None = Return segments) ->
        Py.join " " (map text segments) <> "" ->
        model_names_to_try = (tried ++ name :: rest)%list ->
        Forall2 (rejects svc) errors tried ->
        GenerativeModel svc name = Return m ->
        forall max_length' temperature',
          filter is_generate_content
            (run svc {| max_length := max_length';
                        temperature := temperature';
                        youtube_link := youtube_link w;
                        generate_summary := generate_summary w |})
          = [GenerateContent m
               (PROMPT_HEAD ++ Py.join " " (map text segments) ++ nl)
               [("HARM_CATEGORY_HARASSMENT", "BLOCK_ONLY_HIGH");
                ("HARM_CATEGORY_HATE_SPEECH", "BLOCK_ONLY_HIGH");
                ("HARM_CATEGORY_SEXUALLY_EXPLICIT", "BLOCK_ONLY_HIGH");
                ("HARM_CATEGORY_DANGEROUS_CONTENT", "BLOCK_ONLY_HIGH")]
               {| genai.temperature := 0.3; genai.top_p := 0.95;
                  genai.top_k := 40; genai.max_output_tokens := 2048 |}]).
Proof.
  split; [|split].
  - apply (Shell.script_fixed_configuration svc w []). constructor.
  - reflexivity.
  - intros id tl segments errors tried name rest m
      Hb Hid Hne Hl Hfetch Htext Hnames Hrej Hm max_length' temperature'.
    exact (Request.run_generation_request svc w id tl segments errors tried
             name rest m Hb Hid Hne Hl Hfetch Htext Hnames Hrej Hm).
Qed.

Lemma generation_configuration_is_fixed_witness :
  filter is_generate_content
    (run Stubs.english
         {| max_length := 500; temperature := 1;
            youtube_link := "https://www.youtube.com/watch?v=abc123";
            generate_summary := true |})
  = [GenerateContent {| genai.model_name := "gemini-pro" |}
       (PROMPT_HEAD ++ "Hello world" ++ nl)
       [("HARM_CATEGORY_HARASSMENT", "BLOCK_ONLY_HIGH");
        ("HARM_CATEGORY_HATE_SPEECH", "BLOCK_ONLY_HIGH");
        ("HARM_CATEGORY_SEXUALLY_EXPLICIT", "BLOCK_ONLY_HIGH");
        ("HARM_CATEGORY_DANGEROUS_CONTENT", "BLOCK_ONLY_HIGH")]
       {| genai.temperature := 0.3; genai.top_p := 0.95;
          genai.top_k := 40; genai.max_output_tokens := 2048 |}].
Proof.
  refine (proj2 (proj2 (generation_configuration_is_fixed
                          Stubs.english Stubs.watch_abc123))
            "abc123" ["en"] Stubs.hello_world
            [Exception_ "404 models/gemini-1.5-pro-latest is not found"]
            ["gemini-1.5-pro-latest"] "gemini-pro" ["models/gemini-pro"]
            {| genai.model_name := "gemini-pro" |}
            eq_refl eq_refl _ eq_refl (or_introl eq_refl) _ eq_refl _ eq_refl
            500%Z 1%Q); try discriminate.
  constructor; [split; reflexivity | constructor].
Defined.
